(** * ImageCompressor: a shallow embedding of [src/imageCompressor.ts]

    The development follows the class [ImageCompressor]: the settings record,
    the eligibility test [canCompress], the body of [compressImage] (quality
    planning, dimension planning, first encoder call, forced second call) and
    the static helper [formatFileSize].

    Numbers.  A JavaScript [number] that the code treats as a fraction
    (qualities, scale factors, ratios, size thresholds, configured limits) is
    an exact rational of [Q]; byte sizes, which come from [File.size], are
    naturals of [N]; pixel dimensions read from an [Image] element are
    integers of [Z].  Arithmetic is exact: the rounding of binary64 is not
    part of the model, and neither are [NaN] and the infinities.  The code
    reaches those only by a division by zero: the ratio of an empty input
    file, or a clamp against a negative size limit of a side that was
    scaled down to [0].  The model reads [x / 0] as [0]; a statement whose
    truth depends on that reading excludes those inputs by a hypothesis,
    except the bounds of dimension planning and of the success toast, which
    are stated for every input.

    Effects.  [compressImage] awaits external services: the image decoder
    used to probe the dimensions and, at most twice, the encoder
    [imageCompression].  They are the fields of a [World]; the computation is
    a state-and-exception monad whose state is the list of encoder requests
    issued so far. *)

From Stdlib Require Import QArith Qround Qminmax ZArith NArith.
From Stdlib Require Import Bool String Ascii List Lia Lqa DecimalString.
Import ListNotations.

Local Open Scope Q_scope.

(** ** JavaScript values *)

Module Js.

(** [!!b] for an optional boolean property: [undefined] and [false] are falsy. *)
Definition truthy (b : option bool) : bool :=
  match b with
  | Some true => true
  | _ => false
  end.

(** [b !== false] for an optional boolean property. *)
Definition notFalse (b : option bool) : bool :=
  match b with
  | Some false => false
  | _ => true
  end.

(** [!!n] for an optional numeric property: [undefined] and [0] are falsy. *)
Definition truthyNum (n : option Q) : bool :=
  match n with
  | Some q => negb (Qeq_bool q 0)
  | None => false
  end.

(** [n || 0] for an optional numeric property. *)
Definition orZero (n : option Q) : Q :=
  match n with
  | Some q => q
  | None => 0
  end.

(** [x < y], [x > y], [x >= y] and [x !== y] on numbers. *)
Definition lt (x y : Q) : bool := negb (Qle_bool y x).
Definition gt (x y : Q) : bool := lt y x.
Definition ge (x y : Q) : bool := Qle_bool y x.
Definition neq (x y : Q) : bool := negb (Qeq_bool x y).

(** [Math.floor], [Math.min] and [Math.max]. *)
Definition floor (x : Q) : Q := inject_Z (Qfloor x).
Definition min (x y : Q) : Q := Qmin x y.
Definition max (x y : Q) : Q := Qmax x y.

(** A byte count, and a pixel count, as a number. *)
Definition ofN (n : N) : Q := inject_Z (Z.of_N n).
Definition ofZ (z : Z) : Q := inject_Z z.

End Js.

(** ** Data model *)

(** [CompressionSettings]: every property marked [?] in the interface is
    optional, hence an [option]. *)
Record CompressionSettings := {
  quality : Q;
  useQuality : option bool;
  maintainSize : option bool;
  maxWidth : option Q;
  maxHeight : option Q;
  useScaling : option bool;
  scalePercent : option Q;
  useSizeLimits : option bool;
  enabled : bool
}.

Definition DEFAULT_SETTINGS : CompressionSettings := {|
  quality := 0.6;
  useQuality := Some true;
  maintainSize := Some true;
  maxWidth := Some 1920;
  maxHeight := Some 1080;
  useScaling := Some false;
  scalePercent := Some 100;
  useSizeLimits := Some false;
  enabled := true
|}.

(** The part of a DOM [File] the compressor reads: its declared MIME type and
    its byte size; the name tells files apart. *)
Record File := {
  name : string;
  type : string;
  size : N
}.

Record CompressionResult := {
  originalFile : File;
  compressedFile : File;
  originalSize : N;
  compressedSize : N;
  compressionRatio : Q
}.

(** The [options] object handed to [imageCompression].  [maxWidthOrHeight] is
    absent until the code assigns it; [onProgress] is a no-op callback and is
    left out. *)
Record Options := {
  maxSizeMB : Q;
  useWebWorker : bool;
  alwaysKeepResolution : bool;
  initialQuality : Q;
  maxIteration : Z;
  fileType : string;
  exifOrientation : Z;
  maxWidthOrHeight : option Q
}.

Record Dimensions := {
  width : Z;
  height : Z
}.

(** ** [canCompress] *)

Definition imageTypes : list string :=
  ["image/jpeg"; "image/png"; "image/webp"; "image/gif"]%string.

(** [Array.prototype.includes] on strings. *)
Definition includes (l : list string) (s : string) : bool :=
  existsb (String.eqb s) l.

Definition canCompress (settings : CompressionSettings) (file : File) : bool :=
  if negb (enabled settings) then false
  else includes imageTypes (type file).

(** ** Quality planning (the [compressionQuality] variable) *)

Definition compressionQuality (settings : CompressionSettings) (file : File) : Q :=
  let q := quality settings in
  let q :=
    if Js.gt (Js.ofN (size file)) (1024 * 1024) then Js.min q 0.5
    else if Js.gt (Js.ofN (size file)) (500 * 1024) then Js.min q 0.6
    else q in
  if String.eqb (type file) "image/png" then Js.min q 0.5 else q.

(** The [options] literal, before any size adjustment. *)
Definition baseOptions (settings : CompressionSettings) (file : File) : Options := {|
  maxSizeMB := 10;
  useWebWorker := true;
  alwaysKeepResolution :=
    negb (Js.truthy (useScaling settings)) && negb (Js.truthy (useSizeLimits settings));
  initialQuality :=
    if Js.notFalse (useQuality settings) then compressionQuality settings file else 1;
  maxIteration := 10;
  fileType := type file;
  exifOrientation := 1;
  maxWidthOrHeight := None
|}.

(** ** Dimension planning *)

(** Percentage scaling of [(targetWidth, targetHeight)]. *)
Definition scaledDimensions (settings : CompressionSettings) (target : Q * Q) : Q * Q :=
  let '(targetWidth, targetHeight) := target in
  if Js.truthy (useScaling settings)
     && Js.truthyNum (scalePercent settings)
     && Js.lt (Js.orZero (scalePercent settings)) 100
  then
    let scale := Js.orZero (scalePercent settings) / 100 in
    (Js.floor (targetWidth * scale), Js.floor (targetHeight * scale))
  else target.

(** Maximum-size limits applied to [(targetWidth, targetHeight)]: the two
    [if] statements of the source, in their order. *)
Definition resultDimensions (settings : CompressionSettings) (target : Q * Q) : Q * Q :=
  if Js.truthy (useSizeLimits settings)
     && Js.truthyNum (maxWidth settings)
     && Js.truthyNum (maxHeight settings)
  then
    let maxW := Js.orZero (maxWidth settings) in
    let maxH := Js.orZero (maxHeight settings) in
    let '(targetWidth, targetHeight) := target in
    let '(targetWidth, targetHeight) :=
      if Js.gt targetWidth maxW then
        let ratio := maxW / targetWidth in
        (maxW, Js.floor (targetHeight * ratio))
      else (targetWidth, targetHeight) in
    let '(targetWidth, targetHeight) :=
      if Js.gt targetHeight maxH then
        let ratio := maxH / targetHeight in
        (Js.floor (targetWidth * ratio), maxH)
      else (targetWidth, targetHeight) in
    (targetWidth, targetHeight)
  else target.

(** [(targetWidth, targetHeight)] once both steps have run. *)
Definition targetDimensions (settings : CompressionSettings) (original : Dimensions) : Q * Q :=
  resultDimensions settings
    (scaledDimensions settings (Js.ofZ (width original), Js.ofZ (height original))).

(** The block guarded by [shouldAdjustSize && originalDimensions && ...]:
    it may assign [maxWidthOrHeight] and clear [alwaysKeepResolution]. *)
Definition adjustSize (settings : CompressionSettings) (shouldAdjustSize : bool)
    (originalDimensions : option Dimensions) (options : Options) : Options :=
  match originalDimensions with
  | Some original =>
      if shouldAdjustSize && (0 <? width original)%Z && (0 <? height original)%Z then
        let '(targetWidth, targetHeight) := targetDimensions settings original in
        if Js.neq targetWidth (Js.ofZ (width original))
           || Js.neq targetHeight (Js.ofZ (height original))
        then {|
          maxSizeMB := maxSizeMB options;
          useWebWorker := useWebWorker options;
          alwaysKeepResolution := false;
          initialQuality := initialQuality options;
          maxIteration := maxIteration options;
          fileType := fileType options;
          exifOrientation := exifOrientation options;
          maxWidthOrHeight := Some (Js.max targetWidth targetHeight)
        |}
        else options
      else options
  | None => options
  end.

(** ** The forced second request *)

Definition forcedOptions (settings : CompressionSettings) (file : File)
    (options : Options) : Options := {|
  maxSizeMB := maxSizeMB options;
  useWebWorker := useWebWorker options;
  alwaysKeepResolution := alwaysKeepResolution options;
  initialQuality := Js.max 0.1 (compressionQuality settings file - 0.4);
  maxIteration := maxIteration options;
  fileType := type file;
  exifOrientation := exifOrientation options;
  maxWidthOrHeight :=
    if Js.truthyNum (maxWidthOrHeight options) then
      Some (Js.floor (Js.orZero (maxWidthOrHeight options) * 0.8))
    else if Js.truthyNum (maxWidth settings) then
      Some (Js.floor (Js.max (Js.orZero (maxWidth settings))
                             (Js.orZero (maxHeight settings)) * 0.8))
    else None
|}.

(** ** External services and the computation monad *)

(** What a caller of [compressImage] can catch: the error raised for an
    ineligible file, whatever the encoder rejected its promise with, or an
    exception of the DOM calls made while probing. *)
Inductive Thrown :=
| FileCannotBeCompressed
| EncoderError (reason : string)
| DomError (reason : string).

Inductive Completion (A : Type) :=
| Normal (a : A)
| Abrupt (e : Thrown).
Arguments Normal {A} a.
Arguments Abrupt {A} e.

(** How the temporary [Image] element settles: [onload] with the decoded
    size, [onerror], or an exception of [URL.createObjectURL] before the
    promise is awaited. *)
Inductive ImageEvent :=
| OnLoad (w h : Z)
| OnError
| CreateObjectURLThrows (reason : string).

(** How the promise of [imageCompression] settles. *)
Inductive Encoding :=
| Encoded (output : File)
| Rejected (reason : string).

(** The environment of one invocation.  The encoder is indexed by the number
    of requests already issued, so that two calls with equal arguments may
    answer differently. *)
Record World := {
  image : File -> ImageEvent;
  encoder : nat -> File -> Options -> Encoding
}.

Definition Requests := list Options.

Definition M (A : Type) : Type := World -> Requests -> Completion A * Requests.

Definition ret {A} (a : A) : M A := fun _ log => (Normal a, log).

Definition throw {A} (e : Thrown) : M A := fun _ log => (Abrupt e, log).

Definition bind {A B} (m : M A) (k : A -> M B) : M B :=
  fun w log =>
    match m w log with
    | (Normal a, log') => k a w log'
    | (Abrupt e, log') => (Abrupt e, log')
    end.

(** [try { m } catch (error) { handler error }]. *)
Definition tryCatch {A} (m : M A) (handler : Thrown -> M A) : M A :=
  fun w log =>
    match m w log with
    | (Normal a, log') => (Normal a, log')
    | (Abrupt e, log') => handler e w log'
    end.

Declare Scope js_scope.
Delimit Scope js_scope with js.
Notation "x <- m ;; k" := (bind m (fun x => k))
  (at level 100, m at next level, right associativity) : js_scope.

(** [await imageCompression(file, options)]: the request is recorded, then
    the encoder answers. *)
Definition imageCompression (file : File) (options : Options) : M File :=
  fun w log =>
    match encoder w (List.length log) file options with
    | Encoded output => (Normal output, log ++ [options])
    | Rejected reason => (Abrupt (EncoderError reason), log ++ [options])
    end.

(** The promise built around the temporary [Image]: it resolves on both
    handlers, with [{width: 0, height: 0}] from [onerror]. *)
Definition loadPromise (file : File) : M Dimensions :=
  fun w log =>
    match image w file with
    | OnLoad wd ht => (Normal {| width := wd; height := ht |}, log)
    | OnError => (Normal {| width := 0; height := 0 |}, log)
    | CreateObjectURLThrows reason => (Abrupt (DomError reason), log)
    end.

(** ** [compressImage] *)

Definition result (file compressed : File) : CompressionResult := {|
  originalFile := file;
  compressedFile := compressed;
  originalSize := size file;
  compressedSize := size compressed;
  compressionRatio := Js.ofN (size compressed) / Js.ofN (size file)
|}.

(** The probe of the original dimensions: the pair
    [(shouldAdjustSize, originalDimensions)] after the first [try]. *)
Definition probe (settings : CompressionSettings) (file : File)
  : M (bool * option Dimensions) :=
  if Js.truthy (useScaling settings) || Js.truthy (useSizeLimits settings) then
    tryCatch
      (d <- loadPromise file ;; ret (true, Some d))%js
      (fun _ => ret (false, None))
  else ret (false, None).

(** The inner [try]: [Some forcedResult] stands for the early [return]. *)
Definition forcedAttempt (settings : CompressionSettings) (file compressed : File)
    (options : Options) : M (option CompressionResult) :=
  tryCatch
    (forcedCompressedFile <- imageCompression file (forcedOptions settings file options) ;;
     if Js.lt (Js.ofN (size forcedCompressedFile)) (Js.ofN (size compressed) * 0.9)
     then ret (Some (result file forcedCompressedFile))
     else ret None)%js
    (fun _ => ret None).

Definition compressImage (settings : CompressionSettings) (file : File)
  : M CompressionResult :=
  if negb (canCompress settings file) then throw FileCannotBeCompressed
  else
    (p <- probe settings file ;;
     let '(shouldAdjustSize, originalDimensions) := p in
     let options :=
       adjustSize settings shouldAdjustSize originalDimensions (baseOptions settings file) in
     tryCatch
       (compressed <- imageCompression file options ;;
        if Js.ge (Js.ofN (size compressed)) (Js.ofN (size file) * 0.9) then
          (early <- forcedAttempt settings file compressed options ;;
           match early with
           | Some forcedResult => ret forcedResult
           | None => ret (result file compressed)
           end)
        else ret (result file compressed))
       (fun error => throw error))%js.

(** One invocation from an empty request log. *)
Definition run (settings : CompressionSettings) (file : File) (w : World)
  : Completion CompressionResult * Requests :=
  compressImage settings file w [].

(** ** [formatFileSize] *)

Definition sizes : list string := ["Bytes"; "KB"; "MB"; "GB"]%string.

(** [Math.floor(Math.log(bytes) / Math.log(1024))], exactly: a tenth of the
    binary logarithm, rounded down. *)
Definition unitIndex (bytes : N) : nat := N.to_nat (N.log2 bytes / 10).

(** [x.toFixed(2)] as its count of hundredths: the nearest one, the larger on
    a tie. *)
Definition toFixed2 (x : Q) : Z := Qfloor (x * 100 + (1 # 2)).

Definition digits (n : Z) : string := NilZero.string_of_uint (N.to_uint (Z.to_N n)).

(** [parseFloat(s) + ''] for the two-decimal string [s] of [n] hundredths:
    trailing zeros of the fraction are dropped. *)
Definition parseFloatToString (n : Z) : string :=
  let int := (n / 100)%Z in
  let frac := (n mod 100)%Z in
  if (frac =? 0)%Z then digits int
  else if (frac mod 10 =? 0)%Z then (digits int ++ "." ++ digits (frac / 10))%string
  else (digits int ++ "." ++ digits (frac / 10) ++ digits (frac mod 10))%string.

(** [sizes[i]] in a string concatenation: a missing element prints as
    [undefined]. *)
Definition sizesAt (i : nat) : string :=
  match nth_error sizes i with
  | Some unit => unit
  | None => "undefined"%string
  end.

Definition formatFileSize (bytes : N) : string :=
  if (bytes =? 0)%N then "0 Bytes"%string
  else
    let k := 1024 in
    let i := unitIndex bytes in
    (parseFloatToString (toFixed2 (Js.ofN bytes / k ^ Z.of_nat i))
       ++ " " ++ sizesAt i)%string.

(** ** The requests of one invocation *)

(** The pair [(shouldAdjustSize, originalDimensions)] the probe leaves, as a
    function of the world. *)
Definition probed (settings : CompressionSettings) (file : File) (w : World)
  : bool * option Dimensions :=
  if Js.truthy (useScaling settings) || Js.truthy (useSizeLimits settings) then
    match image w file with
    | OnLoad wd ht => (true, Some {| width := wd; height := ht |})
    | OnError => (true, Some {| width := 0; height := 0 |})
    | CreateObjectURLThrows _ => (false, None)
    end
  else (false, None).

(** The request of attempt #1 and of attempt #2. *)
Definition firstRequest (settings : CompressionSettings) (file : File) (w : World) : Options :=
  adjustSize settings (fst (probed settings file w)) (snd (probed settings file w))
    (baseOptions settings file).

Definition secondRequest (settings : CompressionSettings) (file : File) (w : World) : Options :=
  forcedOptions settings file (firstRequest settings file w).

(** ** The retry request as the specification words it *)

(** Quality of the retry from the quality sent in attempt #1. *)
Definition specRetryQuality (o1 : Options) : Q :=
  Js.max 0.1 (initialQuality o1 - 0.4).

(** Longest edge of the retry: from the bound of attempt #1 when it carried
    one, else from the size limits when [useSizeLimits] is on, else unset. *)
Definition specRetryBound (settings : CompressionSettings) (o1 : Options) : option Q :=
  match maxWidthOrHeight o1 with
  | Some edge => Some (Js.floor (edge * 0.8))
  | None =>
      if Js.truthy (useSizeLimits settings) then
        Some (Js.floor (Js.max (Js.orZero (maxWidth settings))
                               (Js.orZero (maxHeight settings)) * 0.8))
      else None
  end.

(** ** The planned quality as the specification words it *)

(** Start at the policy quality; above 1 MiB cap at 0.5, else above 500 KiB
    cap at 0.6; for a PNG cap at 0.5. *)
Definition specPlannedQuality (policyQuality : Q) (bytes : N) (mime : string) : Q :=
  let current := policyQuality in
  let current :=
    if (1048576 <? bytes)%N then Qmin current 0.5
    else if (512000 <? bytes)%N then Qmin current 0.6
    else current in
  if String.eqb mime "image/png" then Qmin current 0.5 else current.

(** ** The size-limit clamp as the specification words it *)

(** Width check: a target wider than [maxW] takes that width, its height
    scaled by [maxW / targetWidth] and rounded down. *)
Definition widthCheck (maxW : Q) (target : Q * Q) : Q * Q :=
  let '(targetWidth, targetHeight) := target in
  if Js.gt targetWidth maxW
  then (maxW, Js.floor (targetHeight * (maxW / targetWidth)))
  else target.

(** Height check: a target taller than [maxH] takes that height, its width
    scaled by [maxH / targetHeight] and rounded down. *)
Definition heightCheck (maxH : Q) (target : Q * Q) : Q * Q :=
  let '(targetWidth, targetHeight) := target in
  if Js.gt targetHeight maxH
  then (Js.floor (targetWidth * (maxH / targetHeight)), maxH)
  else target.

(** ** The invariant of dimension planning *)

(** A target stays within the box [boxW x boxH], and its two sides never
    have opposite strict signs. *)
Definition within (boxW boxH : Q) (target : Q * Q) : Prop :=
  fst target <= boxW /\ snd target <= boxH
  /\ (0 < fst target -> 0 <= snd target)
  /\ (0 < snd target -> 0 <= fst target).

(** ** Scenarios *)

Module Scenario.

(** A JPEG of 1000 bytes. *)
Definition photo : File :=
  {| name := "photo.jpg"; type := "image/jpeg"; size := 1000 |}.

(** An encoder that gains nothing: it hands the input back.  The image
    decodes to 4000 x 3000 pixels. *)
Definition stubborn : World := {|
  image := fun _ => OnLoad 4000 3000;
  encoder := fun _ file _ => Encoded file
|}.

(** The default settings with quality compression switched off and a
    quality of 0.9. *)
Definition qualityOff : CompressionSettings := {|
  quality := 0.9;
  useQuality := Some false;
  maintainSize := Some true;
  maxWidth := Some 1920;
  maxHeight := Some 1080;
  useScaling := Some false;
  scalePercent := Some 100;
  useSizeLimits := Some false;
  enabled := true
|}.

(** An encoder that answers every request with an empty file. *)
Definition hollow : World := {|
  image := fun _ => OnLoad 4000 3000;
  encoder := fun _ file _ => Encoded {| name := name file; type := type file; size := 0 |}
|}.

(** Size limits of 800 x 600 switched on, everything else as the defaults. *)
Definition limited : CompressionSettings := {|
  quality := 0.6;
  useQuality := Some true;
  maintainSize := Some true;
  maxWidth := Some 800;
  maxHeight := Some 600;
  useScaling := Some false;
  scalePercent := Some 100;
  useSizeLimits := Some true;
  enabled := true
|}.

(** A world whose image fails to decode ([onerror] fires); the encoder
    halves its input. *)
Definition undecodable : World := {|
  image := fun _ => OnError;
  encoder := fun _ file _ =>
    Encoded {| name := name file; type := type file; size := size file / 2 |}
|}.

End Scenario.

(** * The rest of the class and its callers

    [updateSettings] and [getSettings] of the class, and from [index.tsx] the
    plugin that owns a compressor ([loadSettings], the upload interceptor
    installed by [interceptFileUpload], [destroy]) and the handlers of the
    preview component that drive it. *)

(** ** [Partial<CompressionSettings>] and object spread *)

(** A partial settings object: every key may be absent ([None]).  A key
    that is present carries a value of the property's type; for a property
    marked [?] that value may itself be [undefined]. *)
Module Partial.

Record t := {
  quality : option Q;
  useQuality : option (option bool);
  maintainSize : option (option bool);
  maxWidth : option (option Q);
  maxHeight : option (option Q);
  useScaling : option (option bool);
  scalePercent : option (option Q);
  useSizeLimits : option (option bool);
  enabled : option bool
}.

(** The object without any key. *)
Definition empty : t := {|
  quality := None; useQuality := None; maintainSize := None;
  maxWidth := None; maxHeight := None; useScaling := None;
  scalePercent := None; useSizeLimits := None; enabled := None
|}.

End Partial.

(** One key of [{...a, ...b}]: the later object wins where it has the key. *)
Definition override {A : Type} (earlier : A) (later : option A) : A :=
  match later with
  | Some v => v
  | None => earlier
  end.

(** [{ ...settings, ...partial }]. *)
Definition spread (settings : CompressionSettings) (partial : Partial.t)
  : CompressionSettings := {|
  quality := override (quality settings) (Partial.quality partial);
  useQuality := override (useQuality settings) (Partial.useQuality partial);
  maintainSize := override (maintainSize settings) (Partial.maintainSize partial);
  maxWidth := override (maxWidth settings) (Partial.maxWidth partial);
  maxHeight := override (maxHeight settings) (Partial.maxHeight partial);
  useScaling := override (useScaling settings) (Partial.useScaling partial);
  scalePercent := override (scalePercent settings) (Partial.scalePercent partial);
  useSizeLimits := override (useSizeLimits settings) (Partial.useSizeLimits partial);
  enabled := override (enabled settings) (Partial.enabled partial)
|}.

(** One key of [{...a, ...b}] for two partial objects. *)
Definition overrideKey {A : Type} (earlier later : option A) : option A :=
  match later with
  | Some v => Some v
  | None => earlier
  end.

(** [{ ...a, ...b }] for two partial objects. *)
Definition spreadPartial (a b : Partial.t) : Partial.t := {|
  Partial.quality := overrideKey (Partial.quality a) (Partial.quality b);
  Partial.useQuality := overrideKey (Partial.useQuality a) (Partial.useQuality b);
  Partial.maintainSize := overrideKey (Partial.maintainSize a) (Partial.maintainSize b);
  Partial.maxWidth := overrideKey (Partial.maxWidth a) (Partial.maxWidth b);
  Partial.maxHeight := overrideKey (Partial.maxHeight a) (Partial.maxHeight b);
  Partial.useScaling := overrideKey (Partial.useScaling a) (Partial.useScaling b);
  Partial.scalePercent := overrideKey (Partial.scalePercent a) (Partial.scalePercent b);
  Partial.useSizeLimits := overrideKey (Partial.useSizeLimits a) (Partial.useSizeLimits b);
  Partial.enabled := overrideKey (Partial.enabled a) (Partial.enabled b)
|}.

(** A settings object seen as a partial one: all nine keys present. *)
Definition allKeys (settings : CompressionSettings) : Partial.t := {|
  Partial.quality := Some (quality settings);
  Partial.useQuality := Some (useQuality settings);
  Partial.maintainSize := Some (maintainSize settings);
  Partial.maxWidth := Some (maxWidth settings);
  Partial.maxHeight := Some (maxHeight settings);
  Partial.useScaling := Some (useScaling settings);
  Partial.scalePercent := Some (scalePercent settings);
  Partial.useSizeLimits := Some (useSizeLimits settings);
  Partial.enabled := Some (enabled settings)
|}.

(** ** [updateSettings] and [getSettings]

    The state of an [ImageCompressor] is its private [settings] field. *)

Definition updateSettings (partial : Partial.t) (this : CompressionSettings)
  : CompressionSettings :=
  spread this partial.

Definition getSettings (this : CompressionSettings) : CompressionSettings :=
  spread this Partial.empty.

(** ** The plugin *)

(** What the host's [upload] slot can hold: a function of the host, or the
    interceptor the plugin installs. *)
Inductive UploadFunction :=
| HostFunction (id : nat)
| Interceptor.

(** The plugin object: its own [settings] (after [loadSettings] the parsed
    object itself, so keys may be missing), its compressor, and the upload
    function it saved. *)
Record Plugin := {
  pluginSettings : Partial.t;
  imageCompressor : CompressionSettings;
  originalUploadFunction : option UploadFunction
}.

(** The field initialisers and the constructor. *)
Definition newPlugin : Plugin := {|
  pluginSettings := allKeys DEFAULT_SETTINGS;
  imageCompressor := DEFAULT_SETTINGS;
  originalUploadFunction := None
|}.

(** How [getPluginConfig.query] and [JSON.parse] answer: the query rejects;
    the configuration is missing or has no (non-empty) [compressionSettings];
    the stored text does not parse; or it parses to an object. *)
Inductive ConfigAnswer :=
| QueryRejected (reason : string)
| NoSavedSettings
| Unparsable
| Parsed (savedSettings : Partial.t).

Definition loadSettings (answer : ConfigAnswer) (this : Plugin) : Plugin :=
  match answer with
  | Parsed savedSettings => {|
      pluginSettings := savedSettings;
      imageCompressor := updateSettings savedSettings (imageCompressor this);
      originalUploadFunction := originalUploadFunction this
    |}
  | _ => this
  end.

(** [blinko.store?.resourceStore]: absent, or present with or without an
    [upload] function. *)
Definition ResourceStore := option (option UploadFunction).

Definition interceptFileUpload (this : Plugin) (store : ResourceStore)
  : Plugin * ResourceStore :=
  match store with
  | Some (Some upload) =>
      ({| pluginSettings := pluginSettings this;
          imageCompressor := imageCompressor this;
          originalUploadFunction := Some upload |},
       Some (Some Interceptor))
  | _ => (this, store)
  end.

(** The effect of [destroy] on the upload slot. *)
Definition destroy (this : Plugin) (store : ResourceStore) : ResourceStore :=
  match originalUploadFunction this, store with
  | Some upload, Some _ => Some (Some upload)
  | _, _ => store
  end.

(** ** The upload interceptor *)

(** The messages shown through [blinko.toast]: the parameters handed to the
    translation of the success message, the no-gain notice, or an error with
    its message. *)
Inductive Toast :=
| ToastSuccess (original compressed : string) (percent : Z)
| ToastInfo
| ToastError (message : string).

(** What the interceptor needs from the host besides the upload function:
    whether [blinko.toast.info] exists, and how [arrayBuffer()] of a file
    settles ([Some reason] when it rejects). *)
Record Host := {
  toastInfo : bool;
  arrayBuffer : File -> option string
}.

(** [(error as Error).message]. *)
Definition message (e : Thrown) : string :=
  match e with
  | FileCannotBeCompressed => "File cannot be compressed"
  | EncoderError reason => reason
  | DomError reason => reason
  end.

(** [Math.round]: the nearest integer, the larger on a tie. *)
Definition round (x : Q) : Z := Qfloor (x + (1 # 2)).

(** One call of the interceptor: the file handed to the saved upload
    function, the toasts shown and the encoder requests issued. *)
Record Upload := {
  uploaded : File;
  toasts : list Toast;
  encoderRequests : Requests
}.

(** The function installed on [resourceStore.upload].  The saved upload
    function and the toasts are host calls that return; each path ends in one
    call of the saved function. *)
Definition interceptedUpload (this : Plugin) (host : Host) (file : File) (w : World)
  : Upload :=
  if override false (Partial.enabled (pluginSettings this))
     && canCompress (imageCompressor this) file
  then
    match compressImage (imageCompressor this) file w [] with
    | (Normal result, log) =>
        if Js.lt (compressionRatio result) 0.9 then
          let originalSize := formatFileSize (originalSize result) in
          let compressedSize := formatFileSize (compressedSize result) in
          let percent := round ((1 - compressionRatio result) * 100) in
          let success := ToastSuccess originalSize compressedSize percent in
          if String.eqb (type (compressedFile result)) ""
             || negb (String.eqb (type (compressedFile result)) (type file))
          then
            match arrayBuffer host (compressedFile result) with
            | None =>
                let newFile := {|
                  name := name (compressedFile result);
                  type := type file;
                  size := size (compressedFile result)
                |} in
                {| uploaded := newFile; toasts := [success]; encoderRequests := log |}
            | Some reason =>
                {| uploaded := file;
                   toasts := [success; ToastError reason];
                   encoderRequests := log |}
            end
          else
            {| uploaded := compressedFile result;
               toasts := [success];
               encoderRequests := log |}
        else
          {| uploaded := file;
             toasts := if toastInfo host then [ToastInfo] else [];
             encoderRequests := log |}
    | (Abrupt error, log) =>
        {| uploaded := file;
           toasts := [ToastError (message error)];
           encoderRequests := log |}
    end
  else {| uploaded := file; toasts := []; encoderRequests := [] |}.

(** ** The preview component *)

(** [PreviewState]. *)
Module Preview.

Record State := {
  originalImage : option string;
  compressedImage : option string;
  originalSize : N;
  compressedSize : N;
  compressionRatio : Q;
  originalDimensions : option Dimensions;
  compressedDimensions : option Dimensions;
  isCompressing : bool;
  error : option string;
  originalFile : option File;
  settingsChanged : bool
}.

(** The initial state of the component. *)
Definition initial : State := {|
  originalImage := None;
  compressedImage := None;
  originalSize := 0;
  compressedSize := 0;
  compressionRatio := 0;
  originalDimensions := None;
  compressedDimensions := None;
  isCompressing := false;
  error := None;
  originalFile := None;
  settingsChanged := false
|}.

End Preview.

(** What the preview asks of the page: [URL.createObjectURL], which may
    throw, and [getImageDimensions], whose promise always resolves (with
    [{width: 0, height: 0}] from [onerror]). *)
Record Page := {
  createObjectURL : File -> Completion string;
  getImageDimensions : string -> Dimensions
}.

(** The [catch] block of [handleImageFile]. *)
Definition compressionFailed (error : Thrown) (prev : Preview.State) : Preview.State := {|
  Preview.originalImage := Preview.originalImage prev;
  Preview.compressedImage := Preview.compressedImage prev;
  Preview.originalSize := Preview.originalSize prev;
  Preview.compressedSize := Preview.compressedSize prev;
  Preview.compressionRatio := Preview.compressionRatio prev;
  Preview.originalDimensions := Preview.originalDimensions prev;
  Preview.compressedDimensions := Preview.compressedDimensions prev;
  Preview.isCompressing := false;
  Preview.error := Some ("压缩失败: " ++ message error)%string;
  Preview.originalFile := Preview.originalFile prev;
  Preview.settingsChanged := false
|}.

(** [handleImageFile], with the component's current [settings]: the state
    after its updates have been applied in order, and the encoder requests
    issued. *)
Definition handleImageFile (settings : CompressionSettings) (page : Page) (w : World)
    (file : File) (prev : Preview.State) : Preview.State * Requests :=
  if negb (String.prefix "image/" (type file)) then
    ({| Preview.originalImage := Preview.originalImage prev;
        Preview.compressedImage := Preview.compressedImage prev;
        Preview.originalSize := Preview.originalSize prev;
        Preview.compressedSize := Preview.compressedSize prev;
        Preview.compressionRatio := Preview.compressionRatio prev;
        Preview.originalDimensions := Preview.originalDimensions prev;
        Preview.compressedDimensions := Preview.compressedDimensions prev;
        Preview.isCompressing := Preview.isCompressing prev;
        Preview.error := Some "请选择有效的图片文件"%string;
        Preview.originalFile := Preview.originalFile prev;
        Preview.settingsChanged := false |}, [])
  else
    let started := {|
      Preview.originalImage := Preview.originalImage prev;
      Preview.compressedImage := Preview.compressedImage prev;
      Preview.originalSize := Preview.originalSize prev;
      Preview.compressedSize := Preview.compressedSize prev;
      Preview.compressionRatio := Preview.compressionRatio prev;
      Preview.originalDimensions := Preview.originalDimensions prev;
      Preview.compressedDimensions := Preview.compressedDimensions prev;
      Preview.isCompressing := true;
      Preview.error := None;
      Preview.originalFile := Some file;
      Preview.settingsChanged := false |} in
    match createObjectURL page file with
    | Abrupt error => (compressionFailed error started, [])
    | Normal originalUrl =>
        let originalDimensions := getImageDimensions page originalUrl in
        match compressImage settings file w [] with
        | (Abrupt error, log) => (compressionFailed error started, log)
        | (Normal result, log) =>
            match createObjectURL page (compressedFile result) with
            | Abrupt error => (compressionFailed error started, log)
            | Normal compressedUrl =>
                let compressedDimensions := getImageDimensions page compressedUrl in
                ({| Preview.originalImage := Some originalUrl;
                    Preview.compressedImage := Some compressedUrl;
                    Preview.originalSize := originalSize result;
                    Preview.compressedSize := compressedSize result;
                    Preview.compressionRatio := compressionRatio result;
                    Preview.originalDimensions := Some originalDimensions;
                    Preview.compressedDimensions := Some compressedDimensions;
                    Preview.isCompressing := false;
                    Preview.error := None;
                    Preview.originalFile := Preview.originalFile started;
                    Preview.settingsChanged := false |}, log)
            end
        end
    end.

(** [handleSettingChange]: the component's [settings] and [previewState]
    after the change. *)
Definition handleSettingChange (newSettings : Partial.t)
    (settings : CompressionSettings) (prev : Preview.State)
  : CompressionSettings * Preview.State :=
  (spread settings newSettings,
   match Preview.originalFile prev with
   | Some _ => {|
       Preview.originalImage := Preview.originalImage prev;
       Preview.compressedImage := Preview.compressedImage prev;
       Preview.originalSize := Preview.originalSize prev;
       Preview.compressedSize := Preview.compressedSize prev;
       Preview.compressionRatio := Preview.compressionRatio prev;
       Preview.originalDimensions := Preview.originalDimensions prev;
       Preview.compressedDimensions := Preview.compressedDimensions prev;
       Preview.isCompressing := Preview.isCompressing prev;
       Preview.error := Preview.error prev;
       Preview.originalFile := Preview.originalFile prev;
       Preview.settingsChanged := true |}
   | None => prev
   end).

(** [applyCompression]. *)
Definition applyCompression (settings : CompressionSettings) (page : Page) (w : World)
    (prev : Preview.State) : Preview.State * Requests :=
  match Preview.originalFile prev with
  | Some file =>
      if Preview.settingsChanged prev
      then handleImageFile settings page w file prev
      else (prev, [])
  | None => (prev, [])
  end.

(** ** Fixtures *)

Module Fixture.

(** A saved object from which the [enabled] key is missing. *)
Definition savedWithoutEnabled : Partial.t := {|
  Partial.quality := Some 0.8;
  Partial.useQuality := None;
  Partial.maintainSize := None;
  Partial.maxWidth := Some (Some 1024);
  Partial.maxHeight := Some (Some 768);
  Partial.useScaling := None;
  Partial.scalePercent := None;
  Partial.useSizeLimits := None;
  Partial.enabled := None
|}.

(** A host with [toast.info] whose [arrayBuffer()] always resolves. *)
Definition host : Host := {|
  toastInfo := true;
  arrayBuffer := fun _ => None
|}.

(** An encoder that halves its input on every request. *)
Definition halving : World := {|
  image := fun _ => OnLoad 4000 3000;
  encoder := fun _ file _ =>
    Encoded {| name := name file; type := type file; size := size file / 2 |}
|}.

(** An encoder that gains nothing at first and a fifth of the size when
    forced. *)
Definition reluctant : World := {|
  image := fun _ => OnLoad 4000 3000;
  encoder := fun calls file _ =>
    match calls with
    | O => Encoded file
    | _ => Encoded {| name := name file; type := type file; size := size file / 5 |}
    end
|}.


(** A page whose object URLs are the file names and whose images measure
    640 x 480. *)
Definition page : Page := {|
  createObjectURL := fun file => Normal ("blob:" ++ name file)%string;
  getImageDimensions := fun _ => {| width := 640; height := 480 |}
|}.

(** A screenshot: a PNG of about 2 MB. *)
Definition screenshot : File :=
  {| name := "shot.png"; type := "image/png"; size := 2000000 |}.

(** A bitmap: an image type outside the compressor's list. *)
Definition bitmap : File :=
  {| name := "scan.bmp"; type := "image/bmp"; size := 5000 |}.

End Fixture.

(** * Properties *)

(** ** Comparisons and rounding *)

Module JsFacts.

Lemma lt_spec (x y : Q) : Js.lt x y = true <-> x < y.
Proof.
  unfold Js.lt. rewrite negb_true_iff. split; intro H.
  - apply Qnot_le_lt. intro L. apply Qle_bool_iff in L. congruence.
  - destruct (Qle_bool y x) eqn:E; [|reflexivity].
    apply Qle_bool_iff in E. exfalso. exact (Qlt_not_le _ _ H E).
Qed.

Lemma lt_false (x y : Q) : Js.lt x y = false <-> y <= x.
Proof.
  unfold Js.lt. rewrite negb_false_iff. apply Qle_bool_iff.
Qed.

Lemma gt_spec (x y : Q) : Js.gt x y = true <-> y < x.
Proof. apply lt_spec. Qed.

Lemma gt_false (x y : Q) : Js.gt x y = false <-> x <= y.
Proof. apply lt_false. Qed.

Lemma ge_spec (x y : Q) : Js.ge x y = true <-> y <= x.
Proof. apply Qle_bool_iff. Qed.

Lemma floor_le (x : Q) : Js.floor x <= x.
Proof. apply Qfloor_le. Qed.

End JsFacts.

(** ** Unfolding one invocation *)

Lemma probe_probed settings file w log :
  probe settings file w log = (Normal (probed settings file w), log).
Proof.
  unfold probe, probed, tryCatch, bind, loadPromise, ret.
  destruct (Js.truthy (useScaling settings) || Js.truthy (useSizeLimits settings));
    [destruct (image w file)|]; reflexivity.
Qed.

Lemma run_ineligible settings file w :
  canCompress settings file = false ->
  run settings file w = (Abrupt FileCannotBeCompressed, []).
Proof.
  intro H. unfold run, compressImage. rewrite H. reflexivity.
Qed.

(** Every eligible invocation, case by case on what the encoder answers. *)
Lemma run_eligible settings file w :
  canCompress settings file = true ->
  run settings file w =
    let o1 := firstRequest settings file w in
    let o2 := secondRequest settings file w in
    match encoder w 0 file o1 with
    | Rejected reason => (Abrupt (EncoderError reason), [o1])
    | Encoded c1 =>
        if Js.ge (Js.ofN (size c1)) (Js.ofN (size file) * 0.9) then
          match encoder w 1 file o2 with
          | Encoded c2 =>
              if Js.lt (Js.ofN (size c2)) (Js.ofN (size c1) * 0.9)
              then (Normal (result file c2), [o1; o2])
              else (Normal (result file c1), [o1; o2])
          | Rejected _ => (Normal (result file c1), [o1; o2])
          end
        else (Normal (result file c1), [o1])
    end.
Proof.
  intro H. unfold run, compressImage. rewrite H. cbn [negb].
  unfold bind at 1. rewrite probe_probed.
  unfold secondRequest, firstRequest.
  destruct (probed settings file w) as [shouldAdjustSize originalDimensions].
  cbn [fst snd].
  set (o1 := adjustSize _ _ _ _).
  unfold tryCatch at 1, bind at 1, imageCompression at 1. cbn [List.length app].
  destruct (encoder w 0 file o1) as [c1|reason]; [|reflexivity].
  destruct (Js.ge _ _); [|reflexivity].
  unfold bind, forcedAttempt, tryCatch, bind, imageCompression. cbn [List.length app].
  destruct (encoder w 1 file (forcedOptions settings file o1)) as [c2|reason];
    [|reflexivity].
  destruct (Js.lt _ _); reflexivity.
Qed.

(** The five ways an eligible invocation can go, once [run_eligible] has
    been rewritten: forced output adopted, forced output discarded, forced
    attempt rejected, no forced attempt, first attempt rejected. *)
Ltac encoder_cases w file :=
  cbv zeta;
  destruct (encoder w 0 file _) as [?c1|?reason];
  [ destruct (Js.ge _ _);
    [ destruct (encoder w 1 file _) as [?c2|?reason]; [destruct (Js.lt _ _)|] |] |];
  cbn [fst snd].

(** The requests of an eligible invocation: attempt #1 alone, or followed by
    the forced attempt. *)
Lemma requests_eligible settings file w :
  canCompress settings file = true ->
  snd (run settings file w) = [firstRequest settings file w]
  \/ snd (run settings file w)
     = [firstRequest settings file w; secondRequest settings file w].
Proof.
  intro H. rewrite (run_eligible _ _ _ H).
  encoder_cases w file; auto.
Qed.

Lemma requests_first settings file w o :
  nth_error (snd (run settings file w)) 0 = Some o ->
  canCompress settings file = true /\ o = firstRequest settings file w.
Proof.
  destruct (canCompress settings file) eqn:E.
  - destruct (requests_eligible _ _ w E) as [R|R]; rewrite R; cbn;
      intro H; injection H as <-; auto.
  - rewrite (run_ineligible _ _ w E). cbn. discriminate.
Qed.

Lemma requests_second settings file w o :
  nth_error (snd (run settings file w)) 1 = Some o ->
  canCompress settings file = true /\ o = secondRequest settings file w.
Proof.
  destruct (canCompress settings file) eqn:E.
  - destruct (requests_eligible _ _ w E) as [R|R]; rewrite R; cbn;
      intro H; [discriminate|injection H as <-; auto].
  - rewrite (run_ineligible _ _ w E). cbn. discriminate.
Qed.

Lemma requests_pair settings file w o1 o2 :
  snd (run settings file w) = [o1; o2] ->
  canCompress settings file = true
  /\ o1 = firstRequest settings file w /\ o2 = secondRequest settings file w.
Proof.
  intro H.
  assert (H1 : nth_error (snd (run settings file w)) 0 = Some o1) by (rewrite H; reflexivity).
  assert (H2 : nth_error (snd (run settings file w)) 1 = Some o2) by (rewrite H; reflexivity).
  apply requests_first in H1. apply requests_second in H2. tauto.
Qed.

(** Without a geometry flag the first request is the [options] literal. *)
Lemma firstRequest_no_flags settings file w :
  Js.truthy (useScaling settings) = false ->
  Js.truthy (useSizeLimits settings) = false ->
  firstRequest settings file w = baseOptions settings file.
Proof.
  intros H1 H2. unfold firstRequest, probed. rewrite H1, H2. reflexivity.
Qed.

(** ** Eligibility *)

Lemma includes_In (l : list string) (s : string) : includes l s = true <-> In s l.
Proof.
  unfold includes. rewrite existsb_exists. split.
  - intros [x [Hin Heq]]. apply String.eqb_eq in Heq. subst. exact Hin.
  - intro Hin. exists s. split; [exact Hin|apply String.eqb_refl].
Qed.

(** C5. [canCompress] holds exactly when the policy is enabled and the
    declared type is one of JPEG, PNG, WebP, GIF; [compressImage] throws the
    not-eligible error, with no encoder request issued, exactly when the
    policy is disabled or the type is outside that list. *)
Theorem canCompress_whitelist_and_gate (settings : CompressionSettings) (file : File) :
  (canCompress settings file = true <->
     enabled settings = true
     /\ In (type file) ["image/jpeg"; "image/png"; "image/webp"; "image/gif"]%string)
  /\ (forall w : World,
        run settings file w = (Abrupt FileCannotBeCompressed, []) <->
          enabled settings = false
          \/ ~ In (type file) ["image/jpeg"; "image/png"; "image/webp"; "image/gif"]%string)
  /\ (forall w : World,
        fst (run settings file w) = Abrupt FileCannotBeCompressed ->
        snd (run settings file w) = []).
Proof.
  assert (G : canCompress settings file = true <->
     enabled settings = true
     /\ In (type file) ["image/jpeg"; "image/png"; "image/webp"; "image/gif"]%string).
  { unfold canCompress. destruct (enabled settings); cbn [negb].
    - rewrite includes_In. unfold imageTypes. tauto.
    - split; [discriminate|intros [H _]; discriminate]. }
  split; [exact G|]. split.
  - intro w. destruct (canCompress settings file) eqn:E.
    + split.
      * intro R. destruct (requests_eligible _ _ w E) as [L|L];
          rewrite R in L; discriminate.
      * destruct (proj1 G eq_refl) as [En Hin]. intros [Off|Out]; [congruence|tauto].
    + split; [|intros _; apply run_ineligible; exact E].
      intros _. destruct (enabled settings) eqn:En; [right|left; reflexivity].
      intro Hin. assert (false = true) by (apply G; auto).
      discriminate.
  - intro w. destruct (canCompress settings file) eqn:E.
    + rewrite (run_eligible _ _ _ E). encoder_cases w file; discriminate.
    + rewrite (run_ineligible _ _ w E). reflexivity.
Qed.

(** ** Resizing when no geometry flag is set *)

(** C1, as the code has it.  With [useScaling] and [useSizeLimits] both off,
    the first request never carries a longest-edge bound, whatever the image
    decodes to and whatever [maxWidth] and [maxHeight] hold; the forced
    request carries none only when [maxWidth] is unset or [0], and otherwise
    carries [floor(max(maxWidth, maxHeight || 0) * 0.8)]. *)
Theorem no_flags_first_unbounded_forced_from_maxWidth
    (settings : CompressionSettings) (file : File) (w : World) :
  Js.truthy (useScaling settings) = false ->
  Js.truthy (useSizeLimits settings) = false ->
  (forall o1, nth_error (snd (run settings file w)) 0 = Some o1 ->
     maxWidthOrHeight o1 = None)
  /\ (forall o2, nth_error (snd (run settings file w)) 1 = Some o2 ->
        maxWidthOrHeight o2 =
          if Js.truthyNum (maxWidth settings) then
            Some (Js.floor (Js.max (Js.orZero (maxWidth settings))
                                   (Js.orZero (maxHeight settings)) * 0.8))
          else None).
Proof.
  intros H1 H2. split.
  - intros o1 Ho. apply requests_first in Ho. destruct Ho as [_ ->].
    rewrite firstRequest_no_flags by assumption. reflexivity.
  - intros o2 Ho. apply requests_second in Ho. destruct Ho as [_ ->].
    unfold secondRequest. rewrite firstRequest_no_flags by assumption.
    reflexivity.
Qed.

(** The theorem at the default settings, a JPEG of 1000 bytes and an encoder
    that gains nothing. *)
Lemma no_flags_witness :
  (forall o1, nth_error (snd (run DEFAULT_SETTINGS Scenario.photo Scenario.stubborn)) 0 = Some o1 ->
     maxWidthOrHeight o1 = None)
  /\ (forall o2, nth_error (snd (run DEFAULT_SETTINGS Scenario.photo Scenario.stubborn)) 1 = Some o2 ->
        maxWidthOrHeight o2 =
          if Js.truthyNum (maxWidth DEFAULT_SETTINGS) then
            Some (Js.floor (Js.max (Js.orZero (maxWidth DEFAULT_SETTINGS))
                                   (Js.orZero (maxHeight DEFAULT_SETTINGS)) * 0.8))
          else None).
Proof.
  apply (no_flags_first_unbounded_forced_from_maxWidth
           DEFAULT_SETTINGS Scenario.photo Scenario.stubborn); reflexivity.
Defined.

(** C1 as stated fails: under the default settings, where both flags are
    [false], an encoder that gains nothing triggers the forced request, and
    that request carries the bound [floor(1920 * 0.8) = 1536]. *)
Lemma default_settings_forced_request_resizes :
  Js.truthy (useScaling DEFAULT_SETTINGS) = false
  /\ Js.truthy (useSizeLimits DEFAULT_SETTINGS) = false
  /\ List.map maxWidthOrHeight (snd (run DEFAULT_SETTINGS Scenario.photo Scenario.stubborn))
     = [None; Some 1536].
Proof. repeat split. Qed.

(** ** The forced request *)

Lemma firstRequest_quality (settings : CompressionSettings) (file : File) (w : World) :
  initialQuality (firstRequest settings file w)
  = if Js.notFalse (useQuality settings) then compressionQuality settings file else 1.
Proof.
  unfold firstRequest, adjustSize.
  destruct (snd (probed settings file w)) as [d|]; [|reflexivity].
  destruct (fst (probed settings file w) && (0 <? width d)%Z && (0 <? height d)%Z);
    [|reflexivity].
  destruct (targetDimensions settings d) as [tw th].
  destruct (Js.neq tw _ || Js.neq th _); reflexivity.
Qed.

Lemma secondRequest_bound (settings : CompressionSettings) (file : File) (w : World) :
  maxWidthOrHeight (secondRequest settings file w) =
    if Js.truthyNum (maxWidthOrHeight (firstRequest settings file w)) then
      Some (Js.floor (Js.orZero (maxWidthOrHeight (firstRequest settings file w)) * 0.8))
    else if Js.truthyNum (maxWidth settings) then
      Some (Js.floor (Js.max (Js.orZero (maxWidth settings))
                             (Js.orZero (maxHeight settings)) * 0.8))
    else None.
Proof. reflexivity. Qed.

(** C2, as the code has it.  When the forced attempt is made, its quality is
    [max(0.1, planned - 0.4)] for the planned quality [compressionQuality],
    which is the quality sent in attempt #1 unless [useQuality] is [false],
    when attempt #1 sends 1; its longest edge is [floor(edge * 0.8)] when
    attempt #1 carried a non-zero bound [edge]; when attempt #1 carried no
    bound it is [floor(max(maxWidth, maxHeight || 0) * 0.8)] if [maxWidth] is
    set and non-zero, whatever [useSizeLimits] says, and unset otherwise. *)
Theorem forced_request_parameters
    (settings : CompressionSettings) (file : File) (w : World) (o1 o2 : Options) :
  snd (run settings file w) = [o1; o2] ->
  initialQuality o2 = Js.max 0.1 (compressionQuality settings file - 0.4)
  /\ (useQuality settings <> Some false ->
      initialQuality o1 = compressionQuality settings file
      /\ initialQuality o2 = Js.max 0.1 (initialQuality o1 - 0.4))
  /\ (useQuality settings = Some false -> initialQuality o1 = 1)
  /\ (forall edge, maxWidthOrHeight o1 = Some edge -> ~ edge == 0 ->
      maxWidthOrHeight o2 = Some (Js.floor (edge * 0.8)))
  /\ (maxWidthOrHeight o1 = None ->
      maxWidthOrHeight o2 =
        if Js.truthyNum (maxWidth settings) then
          Some (Js.floor (Js.max (Js.orZero (maxWidth settings))
                                 (Js.orZero (maxHeight settings)) * 0.8))
        else None).
Proof.
  intro H. apply requests_pair in H. destruct H as [_ [-> ->]].
  pose proof (firstRequest_quality settings file w) as Q1.
  pose proof (secondRequest_bound settings file w) as B2.
  assert (Q2 : initialQuality (secondRequest settings file w)
               = Js.max 0.1 (compressionQuality settings file - 0.4)) by reflexivity.
  split; [exact Q2|]. split; [|split; [|split]].
  - intro U. assert (On : Js.notFalse (useQuality settings) = true)
      by (destruct (useQuality settings) as [[|]|]; cbn; congruence).
    rewrite On in Q1. split; [exact Q1|]. rewrite Q1. exact Q2.
  - intro U. rewrite U in Q1. exact Q1.
  - intros edge E NZ. rewrite B2, E. cbn.
    destruct (Qeq_bool edge 0) eqn:Z; [|reflexivity].
    apply Qeq_bool_iff in Z. contradiction.
  - intro E. rewrite B2, E. reflexivity.
Qed.

(** A bound of [0] in attempt #1 is falsy, so the forced request falls back
    to [maxWidth] as if there had been none. *)
Remark forced_request_after_zero_bound
    (settings : CompressionSettings) (file : File) (w : World) (edge : Q) :
  maxWidthOrHeight (firstRequest settings file w) = Some edge -> edge == 0 ->
  maxWidthOrHeight (secondRequest settings file w) =
    if Js.truthyNum (maxWidth settings) then
      Some (Js.floor (Js.max (Js.orZero (maxWidth settings))
                             (Js.orZero (maxHeight settings)) * 0.8))
    else None.
Proof.
  intros E Z. rewrite secondRequest_bound, E. cbn.
  apply Qeq_bool_iff in Z. rewrite Z. reflexivity.
Qed.

(** The theorem at the default settings, a JPEG of 1000 bytes and an encoder
    that gains nothing. *)
Lemma forced_request_witness :
  exists o1 o2,
    snd (run DEFAULT_SETTINGS Scenario.photo Scenario.stubborn) = [o1; o2]
    /\ initialQuality o2 = Js.max 0.1 (compressionQuality DEFAULT_SETTINGS Scenario.photo - 0.4)
    /\ (maxWidthOrHeight o1 = None -> maxWidthOrHeight o2 = Some 1536).
Proof.
  eexists. eexists. split; [reflexivity|].
  destruct (forced_request_parameters
              DEFAULT_SETTINGS Scenario.photo Scenario.stubborn _ _ eq_refl)
    as [Q2 [_ [_ [_ B]]]].
  split; [exact Q2|exact B].
Defined.

(** C2 as stated fails on both counts.  With [useQuality] off and a policy
    quality of 0.9, attempt #1 sends quality 1 and the forced request sends
    [max(0.1, 0.9 - 0.4) = 0.5], not [max(0.1, 1 - 0.4) = 0.6]; and with
    [useSizeLimits] off and [maxWidth = 1920] the forced request carries the
    bound 1536, where the claim leaves it unset. *)
Lemma forced_request_differs_from_spec :
  exists o1 o2,
    snd (run Scenario.qualityOff Scenario.photo Scenario.stubborn) = [o1; o2]
    /\ initialQuality o1 == 1
    /\ initialQuality o2 == 0.5
    /\ specRetryQuality o1 == 0.6
    /\ ~ initialQuality o2 == specRetryQuality o1
    /\ maxWidthOrHeight o2 = Some 1536
    /\ specRetryBound Scenario.qualityOff o1 = None
    /\ maxWidthOrHeight o2 <> specRetryBound Scenario.qualityOff o1.
Proof.
  eexists. eexists. split; [reflexivity|].
  repeat split; try reflexivity; try discriminate.
Qed.

(** ** Retry and adoption *)

(** C3. For an eligible file: a rejection by the encoder in attempt #1 is
    thrown to the caller, and nothing else makes the invocation fail; when
    attempt #1 yields [c1], the forced attempt is made exactly when
    [size c1 >= size file * 0.9]; its output [c2] is returned exactly when it
    was produced and [size c2 < size c1 * 0.9]; in every other case,
    a rejection of the forced attempt included, the result of attempt #1 is
    returned. *)
Theorem retry_iff_poor_gain_adopt_iff_better
    (settings : CompressionSettings) (file : File) (w : World) :
  canCompress settings file = true ->
  exists o1,
    nth_error (snd (run settings file w)) 0 = Some o1
    /\ match encoder w 0 file o1 with
       | Rejected reason =>
           run settings file w = (Abrupt (EncoderError reason), [o1])
       | Encoded c1 =>
           (List.length (snd (run settings file w)) = 2%nat <->
              Js.ofN (size file) * 0.9 <= Js.ofN (size c1))
           /\ (List.length (snd (run settings file w)) = 1%nat <->
                 ~ Js.ofN (size file) * 0.9 <= Js.ofN (size c1))
           /\ (List.length (snd (run settings file w)) = 1%nat ->
                 fst (run settings file w) = Normal (result file c1))
           /\ (forall o2, nth_error (snd (run settings file w)) 1 = Some o2 ->
                 match encoder w 1 file o2 with
                 | Encoded c2 =>
                     (Js.ofN (size c2) < Js.ofN (size c1) * 0.9 ->
                        fst (run settings file w) = Normal (result file c2))
                     /\ (~ Js.ofN (size c2) < Js.ofN (size c1) * 0.9 ->
                           fst (run settings file w) = Normal (result file c1))
                 | Rejected _ =>
                     fst (run settings file w) = Normal (result file c1)
                 end)
       end
    /\ ((exists e, fst (run settings file w) = Abrupt e) <->
          (exists reason, encoder w 0 file o1 = Rejected reason)).
Proof.
  intro E. exists (firstRequest settings file w).
  rewrite (run_eligible _ _ _ E). cbv zeta.
  destruct (encoder w 0 file (firstRequest settings file w)) as [c1|reason] eqn:E1.
  - destruct (Js.ge (Js.ofN (size c1)) (Js.ofN (size file) * 0.9)) eqn:G.
    + assert (L : Js.ofN (size file) * 0.9 <= Js.ofN (size c1))
        by (apply JsFacts.ge_spec; exact G).
      destruct (encoder w 1 file (secondRequest settings file w)) as [c2|reason2] eqn:E2.
      * destruct (Js.lt (Js.ofN (size c2)) (Js.ofN (size c1) * 0.9)) eqn:B; cbn.
        -- apply JsFacts.lt_spec in B.
           repeat split; try tauto; try discriminate.
           ++ intros o2 H. injection H as <-. rewrite E2. tauto.
           ++ intros [e H]. discriminate.
           ++ intros [r H]. discriminate.
        -- apply JsFacts.lt_false in B.
           repeat split; try tauto; try discriminate.
           ++ intros o2 H. injection H as <-. rewrite E2.
              split; [intro C; exfalso; exact (Qlt_not_le _ _ C B)|reflexivity].
           ++ intros [e H]. discriminate.
           ++ intros [r H]. discriminate.
      * cbn. repeat split; try tauto; try discriminate.
        -- intros o2 H. injection H as <-. rewrite E2. reflexivity.
        -- intros [e H]. discriminate.
        -- intros [r H]. discriminate.
    + assert (L : ~ Js.ofN (size file) * 0.9 <= Js.ofN (size c1)).
      { intro L. apply JsFacts.ge_spec in L. congruence. }
      cbn. repeat split; try tauto; try discriminate.
      * intros [e H]. discriminate.
      * intros [r H]. discriminate.
  - cbn. repeat split.
    + intros _. exists reason. reflexivity.
    + intros _. exists (EncoderError reason). reflexivity.
Qed.

(** The theorem at the default settings and an encoder that hands the input
    back: the forced attempt is made and, gaining nothing either, discarded. *)
Lemma retry_witness :
  canCompress DEFAULT_SETTINGS Scenario.photo = true
  /\ List.length (snd (run DEFAULT_SETTINGS Scenario.photo Scenario.stubborn)) = 2%nat
  /\ fst (run DEFAULT_SETTINGS Scenario.photo Scenario.stubborn)
     = Normal (result Scenario.photo Scenario.photo).
Proof.
  split; [reflexivity|].
  destruct (retry_iff_poor_gain_adopt_iff_better
              DEFAULT_SETTINGS Scenario.photo Scenario.stubborn eq_refl)
    as [o1 [_ [H _]]].
  cbn [Scenario.stubborn encoder] in H.
  destruct H as [Retry [_ [_ Adopt]]].
  split.
  - apply Retry. unfold Js.ofN, Qle. cbn. lia.
  - specialize (Adopt _ eq_refl). cbn [Scenario.stubborn encoder] in Adopt.
    apply Adopt. unfold Js.ofN, Qlt. cbn. lia.
Defined.

(** ** The compression ratio *)

Lemma ofN_pos (n : N) : 0 < Js.ofN n <-> (0 < n)%N.
Proof.
  unfold Js.ofN, Qlt. cbn. lia.
Qed.

Lemma ratio_pos (a b : N) :
  (0 < b)%N -> (0 < Js.ofN a / Js.ofN b <-> (0 < a)%N).
Proof.
  intro Hb. apply ofN_pos in Hb. split.
  - intro H. destruct (N.eq_0_gt_0_cases a) as [->|P]; [|exact P].
    exfalso. unfold Qdiv in H. change (Js.ofN 0) with 0 in H.
    rewrite Qmult_0_l in H. exact (Qlt_irrefl _ H).
  - intro Ha. apply ofN_pos in Ha. unfold Qdiv.
    apply Qmult_lt_0_compat; [exact Ha|apply Qinv_lt_0_compat; exact Hb].
Qed.

(** C4, as the code has it.  When [compressImage] returns normally, the
    result reports the size of the input file, the size of the adopted encoder
    output (that of attempt #1 or of attempt #2) and their quotient as
    [compressionRatio]; for a non-empty input the ratio is strictly positive
    exactly when the adopted output is non-empty. *)
Theorem ratio_is_quotient_positive_iff_nonempty
    (settings : CompressionSettings) (file : File) (w : World) (r : CompressionResult) :
  fst (run settings file w) = Normal r ->
  originalFile r = file
  /\ originalSize r = size file
  /\ compressedSize r = size (compressedFile r)
  /\ compressionRatio r = Js.ofN (compressedSize r) / Js.ofN (originalSize r)
  /\ (exists i o, (i < 2)%nat
        /\ nth_error (snd (run settings file w)) i = Some o
        /\ encoder w i file o = Encoded (compressedFile r))
  /\ ((0 < size file)%N -> (0 < compressionRatio r <-> (0 < compressedSize r)%N)).
Proof.
  intro H.
  assert (A : exists c i o, r = result file c /\ (i < 2)%nat
                /\ nth_error (snd (run settings file w)) i = Some o
                /\ encoder w i file o = Encoded c).
  { destruct (canCompress settings file) eqn:E;
      [|rewrite (run_ineligible _ _ w E) in H; discriminate].
    revert H. rewrite (run_eligible _ _ _ E). cbv zeta.
    destruct (encoder w 0 file _) as [c1|] eqn:E1; [|cbn; discriminate].
    destruct (Js.ge _ _).
    - destruct (encoder w 1 file _) as [c2|] eqn:E2; [destruct (Js.lt _ _)|];
        cbn; intro H; injection H as <-.
      + exists c2, 1%nat, (secondRequest settings file w). auto.
      + exists c1, 0%nat, (firstRequest settings file w). auto.
      + exists c1, 0%nat, (firstRequest settings file w). auto.
    - cbn; intro H; injection H as <-.
      exists c1, 0%nat, (firstRequest settings file w). auto. }
  destruct A as [c [i [o [-> [Hi [Ho He]]]]]]. cbn.
  repeat split; try reflexivity.
  - exists i, o. auto.
  - apply ratio_pos; assumption.
  - apply ratio_pos; assumption.
Qed.

(** The theorem at the default settings and an encoder that hands the input
    back. *)
Lemma ratio_witness :
  exists r,
    fst (run DEFAULT_SETTINGS Scenario.photo Scenario.stubborn) = Normal r
    /\ compressionRatio r = Js.ofN (compressedSize r) / Js.ofN (originalSize r)
    /\ 0 < compressionRatio r.
Proof.
  eexists. split; [reflexivity|].
  destruct (ratio_is_quotient_positive_iff_nonempty
              DEFAULT_SETTINGS Scenario.photo Scenario.stubborn _ eq_refl)
    as [_ [_ [_ [Q [_ P]]]]].
  split; [exact Q|]. apply P; reflexivity.
Defined.

(** C4 as stated fails: an encoder that answers with an empty file makes
    [compressImage] return normally with a ratio of [0]. *)
Lemma empty_output_gives_zero_ratio :
  exists r,
    fst (run DEFAULT_SETTINGS Scenario.photo Scenario.hollow) = Normal r
    /\ compressedSize r = 0%N
    /\ compressionRatio r == 0
    /\ ~ 0 < compressionRatio r.
Proof.
  eexists. split; [reflexivity|]. repeat split. discriminate.
Qed.

(** ** Quality planning *)

Lemma gt_bytes (n : N) (k : Z) (q : Q) :
  q == inject_Z k -> Js.gt (Js.ofN n) q = (k <? Z.of_N n)%Z.
Proof.
  intro H. destruct (k <? Z.of_N n)%Z eqn:E.
  - apply JsFacts.gt_spec. rewrite H. unfold Js.ofN. rewrite <- Zlt_Qlt.
    apply Z.ltb_lt. exact E.
  - apply JsFacts.gt_false. rewrite H. unfold Js.ofN. rewrite <- Zle_Qle.
    apply Z.ltb_ge. exact E.
Qed.

Lemma compressionQuality_spec (settings : CompressionSettings) (file : File) :
  compressionQuality settings file
  = specPlannedQuality (quality settings) (size file) (type file).
Proof.
  unfold compressionQuality, specPlannedQuality, Js.min.
  rewrite (gt_bytes (size file) 1048576 (1024 * 1024)) by reflexivity.
  rewrite (gt_bytes (size file) 512000 (500 * 1024)) by reflexivity.
  replace (1048576 <? Z.of_N (size file))%Z with (1048576 <? size file)%N
    by (destruct (N.ltb_spec 1048576 (size file));
        destruct (Z.ltb_spec 1048576 (Z.of_N (size file))); lia).
  replace (512000 <? Z.of_N (size file))%Z with (512000 <? size file)%N
    by (destruct (N.ltb_spec 512000 (size file));
        destruct (Z.ltb_spec 512000 (Z.of_N (size file))); lia).
  reflexivity.
Qed.

Lemma compressionQuality_le (settings : CompressionSettings) (file : File) :
  compressionQuality settings file <= quality settings.
Proof.
  unfold compressionQuality, Js.min.
  set (q := quality settings).
  assert (H : (if Js.gt (Js.ofN (size file)) (1024 * 1024) then Qmin q 0.5
               else if Js.gt (Js.ofN (size file)) (500 * 1024) then Qmin q 0.6
               else q) <= q).
  { destruct (Js.gt _ (1024 * 1024)); [apply Q.le_min_l|].
    destruct (Js.gt _ (500 * 1024)); [apply Q.le_min_l|apply Qle_refl]. }
  destruct (String.eqb (type file) "image/png"); [|exact H].
  eapply Qle_trans; [apply Q.le_min_l|exact H].
Qed.

(** C6. The planned quality starts at the policy quality and is only
    lowered: above 1 MiB it is capped at 0.5, else above 500 KiB at 0.6, and
    for a PNG at 0.5; it never exceeds the policy quality.  Attempt #1 sends
    it as the encoder quality unless [useQuality] is [false], and sends 1
    then. *)
Theorem planned_quality_capped_and_sent (settings : CompressionSettings) (file : File) :
  compressionQuality settings file
    = specPlannedQuality (quality settings) (size file) (type file)
  /\ compressionQuality settings file <= quality settings
  /\ (forall w : World,
        canCompress settings file = true ->
        exists o1,
          nth_error (snd (run settings file w)) 0 = Some o1
          /\ (useQuality settings <> Some false ->
              initialQuality o1 = compressionQuality settings file)
          /\ (useQuality settings = Some false -> initialQuality o1 = 1)).
Proof.
  split; [apply compressionQuality_spec|].
  split; [apply compressionQuality_le|].
  intros w E. exists (firstRequest settings file w). split.
  - destruct (requests_eligible _ _ w E) as [R|R]; rewrite R; reflexivity.
  - rewrite firstRequest_quality.
    destruct (useQuality settings) as [[|]|]; cbn; split; congruence.
Qed.

(** The theorem at the default settings and a JPEG of 1000 bytes. *)
Lemma planned_quality_witness :
  compressionQuality DEFAULT_SETTINGS Scenario.photo <= quality DEFAULT_SETTINGS
  /\ exists o1,
       nth_error (snd (run DEFAULT_SETTINGS Scenario.photo Scenario.stubborn)) 0 = Some o1
       /\ initialQuality o1 = compressionQuality DEFAULT_SETTINGS Scenario.photo.
Proof.
  destruct (planned_quality_capped_and_sent DEFAULT_SETTINGS Scenario.photo)
    as [_ [L S]].
  split; [exact L|].
  destruct (S Scenario.stubborn eq_refl) as [o1 [H1 [H2 _]]].
  exists o1. split; [exact H1|]. apply H2. discriminate.
Defined.

(** ** Dimension planning never enlarges *)

Lemma floor_nonneg (x : Q) : 0 <= x -> 0 <= Js.floor x.
Proof.
  intro H. unfold Js.floor. change 0 with (inject_Z 0).
  rewrite <- Zle_Qle. change 0%Z with (Qfloor 0). apply Qfloor_resp_le. exact H.
Qed.

Lemma floor_pos_inv (x : Q) : 0 < Js.floor x -> 0 < x.
Proof.
  intro H. eapply Qlt_le_trans; [exact H|apply JsFacts.floor_le].
Qed.

Lemma floor_le_bound (x b : Q) : x <= b -> Js.floor x <= b.
Proof.
  intro H. eapply Qle_trans; [apply JsFacts.floor_le|exact H].
Qed.

(** One clamp: side [a] is cut to the limit [m], the other side [b] is scaled
    by [m / a] and rounded down. *)
Lemma clamp_step (A B m a b : Q) :
  0 < A -> 0 < B ->
  a <= A -> b <= B -> (0 < a -> 0 <= b) -> (0 < b -> 0 <= a) ->
  m < a ->
  m <= A /\ Js.floor (b * (m / a)) <= B
  /\ (0 < m -> 0 <= Js.floor (b * (m / a)))
  /\ (0 < Js.floor (b * (m / a)) -> 0 <= m).
Proof.
  intros HA HB Ha Hb Sab Sba Hm.
  split; [lra|].
  destruct (Q_dec a 0) as [[Neg|Pos]|Zero].
  - assert (Hr : (m / a) * a == m) by (field; lra).
    set (r := m / a) in *.
    assert (Hb0 : b <= 0).
    { destruct (Qlt_le_dec 0 b) as [P|N]; [specialize (Sba P); lra|exact N]. }
    assert (Hr1 : 1 < r) by nra.
    assert (Hp : b * r <= 0) by nra.
    split; [apply floor_le_bound; lra|].
    split; [intro; lra|].
    intro F. apply floor_pos_inv in F. lra.
  - assert (Hr : (m / a) * a == m) by (field; lra).
    set (r := m / a) in *.
    assert (Hb0 : 0 <= b) by auto.
    assert (Hr1 : r < 1) by nra.
    split; [apply floor_le_bound; nra|].
    split.
    + intro P. apply floor_nonneg. nra.
    + intro F. apply floor_pos_inv in F. nra.
  - assert (Hr : m / a == 0).
    { rewrite Zero. unfold Qdiv. change (/ 0) with 0. ring. }
    assert (Hp : b * (m / a) == 0) by (rewrite Hr; ring).
    split; [apply floor_le_bound; lra|].
    split; [intro; lra|].
    intro F. apply floor_pos_inv in F. lra.
Qed.

Lemma scaledDimensions_within (settings : CompressionSettings) (W H : Q) :
  0 < W -> 0 < H -> within W H (scaledDimensions settings (W, H)).
Proof.
  intros HW HH. unfold scaledDimensions, within.
  destruct (Js.truthy (useScaling settings) && Js.truthyNum (scalePercent settings)
            && Js.lt (Js.orZero (scalePercent settings)) 100) eqn:C.
  - apply andb_true_iff in C. destruct C as [_ C]. apply JsFacts.lt_spec in C.
    set (p := Js.orZero (scalePercent settings)) in *.
    assert (Hs : (p / 100) * 100 == p) by (field; lra).
    set (scale := p / 100) in *.
    assert (Hs1 : scale < 1) by lra.
    cbn [fst snd]. repeat split.
    + apply floor_le_bound. nra.
    + apply floor_le_bound. nra.
    + intro F. apply floor_pos_inv in F. apply floor_nonneg. nra.
    + intro F. apply floor_pos_inv in F. apply floor_nonneg. nra.
  - cbn [fst snd]. repeat split; lra.
Qed.

Lemma widthCheck_within (W H maxW : Q) (target : Q * Q) :
  0 < W -> 0 < H -> within W H target -> within W H (widthCheck maxW target).
Proof.
  intros HW HH. destruct target as [tw th]. unfold widthCheck, within.
  cbn [fst snd]. intros [Hw [Hh [S1 S2]]].
  destruct (Js.gt tw maxW) eqn:G; cbn [fst snd]; [|tauto].
  apply JsFacts.gt_spec in G.
  apply (clamp_step W H maxW tw th); assumption.
Qed.

Lemma heightCheck_within (W H maxH : Q) (target : Q * Q) :
  0 < W -> 0 < H -> within W H target -> within W H (heightCheck maxH target).
Proof.
  intros HW HH. destruct target as [tw th]. unfold heightCheck, within.
  cbn [fst snd]. intros [Hw [Hh [S1 S2]]].
  destruct (Js.gt th maxH) eqn:G; cbn [fst snd]; [|tauto].
  apply JsFacts.gt_spec in G.
  destruct (clamp_step H W maxH th tw) as [K1 [K2 [K3 K4]]]; try assumption.
  tauto.
Qed.

(** The two [if] statements of the source are the width check followed by
    the height check. *)
Lemma resultDimensions_checks (settings : CompressionSettings) (target : Q * Q) :
  resultDimensions settings target =
    if Js.truthy (useSizeLimits settings)
       && Js.truthyNum (maxWidth settings) && Js.truthyNum (maxHeight settings)
    then heightCheck (Js.orZero (maxHeight settings))
           (widthCheck (Js.orZero (maxWidth settings)) target)
    else target.
Proof.
  unfold resultDimensions, heightCheck, widthCheck.
  destruct (Js.truthy (useSizeLimits settings)
            && Js.truthyNum (maxWidth settings) && Js.truthyNum (maxHeight settings));
    [|reflexivity].
  destruct target as [tw th].
  destruct (Js.gt tw _); cbv zeta; destruct (Js.gt _ _); reflexivity.
Qed.

Lemma resultDimensions_within (settings : CompressionSettings) (W H : Q) (target : Q * Q) :
  0 < W -> 0 < H -> within W H target -> within W H (resultDimensions settings target).
Proof.
  intros HW HH I. rewrite resultDimensions_checks.
  destruct (_ && _ && _); [|exact I].
  apply heightCheck_within; try assumption.
  apply widthCheck_within; assumption.
Qed.

Lemma targetDimensions_within (settings : CompressionSettings) (original : Dimensions) :
  (0 < width original)%Z -> (0 < height original)%Z ->
  within (Js.ofZ (width original)) (Js.ofZ (height original))
    (targetDimensions settings original).
Proof.
  intros Hw Hh.
  assert (0 < Js.ofZ (width original)) by (unfold Js.ofZ, Qlt; cbn; lia).
  assert (0 < Js.ofZ (height original)) by (unfold Js.ofZ, Qlt; cbn; lia).
  unfold targetDimensions.
  apply resultDimensions_within; try assumption.
  apply scaledDimensions_within; assumption.
Qed.

Lemma firstRequest_bound (settings : CompressionSettings) (file : File) (w : World) (edge : Q) :
  maxWidthOrHeight (firstRequest settings file w) = Some edge ->
  exists original,
    snd (probed settings file w) = Some original
    /\ (0 < width original)%Z /\ (0 < height original)%Z
    /\ edge = Js.max (fst (targetDimensions settings original))
                     (snd (targetDimensions settings original)).
Proof.
  unfold firstRequest, adjustSize.
  destruct (snd (probed settings file w)) as [d|]; [|cbn; discriminate].
  destruct (fst (probed settings file w)); cbn [andb]; [|cbn; discriminate].
  destruct (0 <? width d)%Z eqn:Pw; cbn [andb]; [|cbn; discriminate].
  destruct (0 <? height d)%Z eqn:Ph; [|cbn; discriminate].
  destruct (targetDimensions settings d) as [tw th] eqn:T.
  destruct (Js.neq tw _ || Js.neq th _); cbn; [|discriminate].
  intro H. injection H as <-. exists d.
  apply Z.ltb_lt in Pw. apply Z.ltb_lt in Ph. rewrite T.
  split; [reflexivity|]. split; [exact Pw|]. split; [exact Ph|reflexivity].
Qed.

(** C7. For decoded dimensions with positive width and height and any
    policy, neither step of dimension planning enlarges a side: the scaled
    and the final target width are at most the original width, the scaled and
    the final target height at most the original height; hence the longest
    edge that attempt #1 carries, when it carries one, is at most the larger
    original side. *)
Theorem planning_never_enlarges (settings : CompressionSettings) (original : Dimensions) :
  (0 < width original)%Z -> (0 < height original)%Z ->
  let W := Js.ofZ (width original) in
  let H := Js.ofZ (height original) in
  (fst (scaledDimensions settings (W, H)) <= W
   /\ snd (scaledDimensions settings (W, H)) <= H)
  /\ (fst (targetDimensions settings original) <= W
      /\ snd (targetDimensions settings original) <= H)
  /\ (forall (file : File) (w : World) (o1 : Options) (edge : Q),
        image w file = OnLoad (width original) (height original) ->
        nth_error (snd (run settings file w)) 0 = Some o1 ->
        maxWidthOrHeight o1 = Some edge ->
        edge <= Js.max W H).
Proof.
  intros Hw Hh W H.
  assert (PW : 0 < W) by (unfold W, Js.ofZ, Qlt; cbn; lia).
  assert (PH : 0 < H) by (unfold H, Js.ofZ, Qlt; cbn; lia).
  pose proof (scaledDimensions_within settings W H PW PH) as [S1 [S2 _]].
  pose proof (targetDimensions_within settings original Hw Hh) as [T1 [T2 _]].
  split; [split; assumption|]. split; [split; assumption|].
  intros file w o1 edge Im Ho Hb.
  apply requests_first in Ho. destruct Ho as [_ ->].
  apply firstRequest_bound in Hb.
  destruct Hb as [d [Pd [_ [_ ->]]]].
  assert (d = original).
  { revert Pd. unfold probed. rewrite Im.
    destruct (Js.truthy (useScaling settings) || Js.truthy (useSizeLimits settings));
      cbn; [|discriminate].
    intro E. injection E as <-. destruct original; reflexivity. }
  subst d. apply Q.max_le_compat; assumption.
Qed.

(** The theorem at limits of 800 x 600 and an image of 4000 x 3000. *)
Lemma planning_witness :
  fst (targetDimensions Scenario.limited {| width := 4000; height := 3000 |}) <= 4000
  /\ snd (targetDimensions Scenario.limited {| width := 4000; height := 3000 |}) <= 3000.
Proof.
  refine (proj1 (proj2 (planning_never_enlarges Scenario.limited
                          {| width := 4000; height := 3000 |} _ _)));
    reflexivity.
Defined.

(** ** Order of the two size checks *)

(** C8. When the size-limit clamp applies ([useSizeLimits] on, [maxWidth]
    and [maxHeight] positive), the planner runs the width check first and the
    height check on its outcome: a target wider than [maxWidth] becomes
    [(maxWidth, floor(targetHeight * maxWidth / targetWidth))]; then a target
    taller than [maxHeight] becomes
    [(floor(targetWidth * maxHeight / targetHeight), maxHeight)]. *)
Theorem width_check_precedes_height_check
    (settings : CompressionSettings) (maxW maxH : Q) :
  useSizeLimits settings = Some true ->
  maxWidth settings = Some maxW -> maxHeight settings = Some maxH ->
  0 < maxW -> 0 < maxH ->
  (forall target : Q * Q,
      resultDimensions settings target = heightCheck maxH (widthCheck maxW target))
  /\ (forall original : Dimensions,
        targetDimensions settings original =
          heightCheck maxH
            (widthCheck maxW
               (scaledDimensions settings
                  (Js.ofZ (width original), Js.ofZ (height original))))).
Proof.
  intros U MW MH PW PH.
  assert (R : forall target : Q * Q,
             resultDimensions settings target = heightCheck maxH (widthCheck maxW target)).
  { intro target. rewrite resultDimensions_checks, U, MW, MH. cbn.
    destruct (Qeq_bool maxW 0) eqn:ZW.
    { apply Qeq_bool_iff in ZW. lra. }
    destruct (Qeq_bool maxH 0) eqn:ZH.
    { apply Qeq_bool_iff in ZH. lra. }
    reflexivity. }
  split; [exact R|]. intro original. unfold targetDimensions. apply R.
Qed.

(** The theorem at limits of 800 x 600 and an image of 1000 x 1001. *)
Lemma width_check_witness :
  targetDimensions Scenario.limited {| width := 1000; height := 1001 |}
  = heightCheck 600
      (widthCheck 800
         (scaledDimensions Scenario.limited (Js.ofZ 1000, Js.ofZ 1001))).
Proof.
  refine (proj2 (width_check_precedes_height_check Scenario.limited 800 600
                   _ _ _ _ _) {| width := 1000; height := 1001 |});
    reflexivity.
Defined.

(** The order is observable: on a 1000 x 1001 target under limits 800 x 600
    the source's order yields 600 x 600, the opposite order 599 x 600. *)
Example check_order_matters :
  heightCheck 600 (widthCheck 800 (1000, 1001)) = (600, 600)
  /\ widthCheck 800 (heightCheck 600 (1000, 1001)) = (599, 600).
Proof. split; reflexivity. Qed.

(** ** A failed probe *)

(** C9. With [useScaling] or [useSizeLimits] on, when the image fails to
    decode (the sentinel [{0, 0}]) or decodes to a non-positive width or
    height, dimension planning is skipped: the first encoder request is still
    issued, it is the untouched [options] literal and carries no longest-edge
    bound, and the invocation fails only if the encoder rejects that request. *)
Theorem failed_probe_skips_resize
    (settings : CompressionSettings) (file : File) (w : World) :
  canCompress settings file = true ->
  Js.truthy (useScaling settings) || Js.truthy (useSizeLimits settings) = true ->
  (image w file = OnError
   \/ exists wd ht, image w file = OnLoad wd ht /\ ((wd <= 0)%Z \/ (ht <= 0)%Z)) ->
  exists o1,
    nth_error (snd (run settings file w)) 0 = Some o1
    /\ o1 = baseOptions settings file
    /\ maxWidthOrHeight o1 = None
    /\ (forall c1, encoder w 0 file o1 = Encoded c1 ->
          exists r, fst (run settings file w) = Normal r)
    /\ (forall e, fst (run settings file w) = Abrupt e ->
          exists reason, encoder w 0 file o1 = Rejected reason /\ e = EncoderError reason).
Proof.
  intros E F P.
  assert (B : firstRequest settings file w = baseOptions settings file).
  { unfold firstRequest, probed. rewrite F.
    destruct P as [-> | [wd [ht [-> D]]]]; cbn; [reflexivity|].
    destruct (0 <? wd)%Z eqn:Pw; [|reflexivity].
    destruct (0 <? ht)%Z eqn:Ph; [|reflexivity].
    apply Z.ltb_lt in Pw. apply Z.ltb_lt in Ph. lia. }
  exists (firstRequest settings file w).
  split; [destruct (requests_eligible _ _ w E) as [R|R]; rewrite R; reflexivity|].
  split; [exact B|]. split; [rewrite B; reflexivity|].
  rewrite (run_eligible _ _ _ E). split.
  - intros c H. encoder_cases w file; try (eexists; reflexivity). discriminate.
  - intros e. encoder_cases w file; try discriminate.
    intro H. injection H as <-. exists reason. auto.
Qed.

(** The theorem at limits of 800 x 600 and an image that fails to decode. *)
Lemma failed_probe_witness :
  exists o1,
    nth_error (snd (run Scenario.limited Scenario.photo Scenario.undecodable)) 0 = Some o1
    /\ o1 = baseOptions Scenario.limited Scenario.photo
    /\ maxWidthOrHeight o1 = None.
Proof.
  destruct (failed_probe_skips_resize Scenario.limited Scenario.photo Scenario.undecodable)
    as [o1 [H1 [H2 [H3 _]]]].
  - reflexivity.
  - reflexivity.
  - left. reflexivity.
  - exists o1. auto.
Defined.

(** ** [formatFileSize] *)

(** [unitIndex] is the floor of the logarithm in base 1024. *)
Lemma unitIndex_spec (bytes : N) :
  (0 < bytes)%N ->
  (1024 ^ N.of_nat (unitIndex bytes) <= bytes
   /\ bytes < 1024 ^ (N.of_nat (unitIndex bytes) + 1))%N.
Proof.
  intro P. unfold unitIndex. rewrite N2Nat.id.
  set (l := N.log2 bytes). set (i := (l / 10)%N).
  destruct (N.log2_spec bytes P) as [Lo Hi]. fold l in Lo, Hi.
  change 1024%N with (2 ^ 10)%N. rewrite <- !N.pow_mul_r.
  assert (A : (10 * i <= l)%N) by (apply N.Div0.mul_div_le).
  assert (B : (l < 10 * N.succ i)%N) by (apply N.mul_succ_div_gt; lia).
  split.
  - eapply N.le_trans; [|exact Lo]. apply N.pow_le_mono_r; lia.
  - eapply N.lt_le_trans; [exact Hi|]. apply N.pow_le_mono_r; lia.
Qed.

(** Below 1 TiB the unit is one of the four labels. *)
Lemma sizesAt_below_TiB (bytes : N) :
  (bytes < 1024 ^ 4)%N -> In (sizesAt (unitIndex bytes)) sizes.
Proof.
  intro H. unfold sizesAt.
  assert (I : (unitIndex bytes < 4)%nat).
  { unfold unitIndex.
    destruct (N.eq_0_gt_0_cases bytes) as [->|P]; [cbn; lia|].
    assert (L : (N.log2 bytes < 40)%N).
    { apply N.log2_lt_pow2; [exact P|]. exact H. }
    assert (D : (N.log2 bytes / 10 < 4)%N) by (apply N.Div0.div_lt_upper_bound; lia).
    lia. }
  destruct (nth_error sizes (unitIndex bytes)) as [u|] eqn:E.
  - eapply nth_error_In. exact E.
  - apply nth_error_None in E. cbn in E. lia.
Qed.

(** From 1 TiB on the index runs past the table. *)
Lemma sizesAt_from_TiB (bytes : N) :
  (1024 ^ 4 <= bytes)%N -> sizesAt (unitIndex bytes) = "undefined"%string.
Proof.
  intro H. unfold sizesAt.
  assert (I : (4 <= unitIndex bytes)%nat).
  { unfold unitIndex.
    assert (L : (40 <= N.log2 bytes)%N).
    { change 40%N with (N.log2 (1024 ^ 4)). apply N.log2_le_mono. exact H. }
    assert (D : (4 <= N.log2 bytes / 10)%N) by (apply N.div_le_lower_bound; lia).
    lia. }
  destruct (nth_error sizes (unitIndex bytes)) as [u|] eqn:E; [|reflexivity].
  assert (Out : nth_error sizes (unitIndex bytes) = None)
    by (apply nth_error_None; cbn; lia).
  congruence.
Qed.

(** C10, on the code.  The three documented values hold, but the function
    does not label every byte count: at 1 TiB the index [4] runs past the
    four units and the text ends in [undefined], as it does for every count
    from 1 TiB on; below 1 TiB the label is one of the four units. *)
Theorem formatFileSize_values_and_missing_unit :
  formatFileSize 0 = "0 Bytes"%string
  /\ formatFileSize 1536 = "1.5 KB"%string
  /\ formatFileSize 1048576 = "1 MB"%string
  /\ formatFileSize 1099511627776 = "1 undefined"%string
  /\ (forall bytes : N,
        (1024 ^ 4 <= bytes)%N ->
        formatFileSize bytes =
          (parseFloatToString
             (toFixed2 (Js.ofN bytes / 1024 ^ Z.of_nat (unitIndex bytes)))
           ++ " undefined")%string)
  /\ (forall bytes : N,
        (0 < bytes < 1024 ^ 4)%N ->
        exists unit,
          In unit sizes
          /\ formatFileSize bytes =
               (parseFloatToString
                  (toFixed2 (Js.ofN bytes / 1024 ^ Z.of_nat (unitIndex bytes)))
                ++ " " ++ unit)%string).
Proof.
  repeat split; try reflexivity.
  - intros bytes H. unfold formatFileSize.
    destruct (bytes =? 0)%N eqn:Z.
    + apply N.eqb_eq in Z. subst. cbn in H. lia.
    + rewrite (sizesAt_from_TiB bytes H). reflexivity.
  - intros bytes [P H]. exists (sizesAt (unitIndex bytes)).
    split; [apply sizesAt_below_TiB; exact H|].
    unfold formatFileSize.
    destruct (bytes =? 0)%N eqn:Z; [|reflexivity].
    apply N.eqb_eq in Z. lia.
Qed.

(** A few more values, around the unit boundaries. *)
Example formatFileSize_samples :
  List.map formatFileSize [1; 1023; 1024; 1100; 1048575; 1234567; 1073741824; 1099511627775]%N
  = ["1 Bytes"; "1023 Bytes"; "1 KB"; "1.07 KB"; "1024 KB"; "1.18 MB"; "1 GB"; "1024 GB"]%string.
Proof. reflexivity. Qed.

(** * Properties of the rest of the class and of its callers *)

(** ** [updateSettings] *)

Lemma override_overrideKey {A : Type} (a : A) (p q : option A) :
  override (override a p) q = override a (overrideKey p q).
Proof. destruct q; reflexivity. Qed.

(** X1. Two updates in a row are one update with the two partial objects
    spread into each other, the later one winning key by key. *)
Theorem updateSettings_twice (p q : Partial.t) (this : CompressionSettings) :
  updateSettings q (updateSettings p this) = updateSettings (spreadPartial p q) this.
Proof.
  unfold updateSettings, spread, spreadPartial. cbn.
  rewrite !override_overrideKey. reflexivity.
Qed.

(** X2. Once an update has carried [enabled: false], every [compressImage]
    fails with the not-eligible error and issues no encoder request, also
    after any further update that does not mention [enabled]. *)
Theorem disabled_by_update_stays_disabled
    (p q : Partial.t) (this : CompressionSettings) (file : File) (w : World) :
  Partial.enabled p = Some false ->
  Partial.enabled q = None ->
  run (updateSettings p this) file w = (Abrupt FileCannotBeCompressed, [])
  /\ run (updateSettings q (updateSettings p this)) file w
     = (Abrupt FileCannotBeCompressed, []).
Proof.
  intros Hp Hq. split; apply run_ineligible; unfold canCompress, updateSettings; cbn;
    rewrite ?Hq, Hp; reflexivity.
Qed.

(** The theorem for an update that only switches the compressor off,
    followed by one that only sets the quality. *)
Lemma disabled_by_update_witness :
  run (updateSettings
         {| Partial.quality := None; Partial.useQuality := None;
            Partial.maintainSize := None; Partial.maxWidth := None;
            Partial.maxHeight := None; Partial.useScaling := None;
            Partial.scalePercent := None; Partial.useSizeLimits := None;
            Partial.enabled := Some false |}
         DEFAULT_SETTINGS) Scenario.photo Scenario.stubborn
  = (Abrupt FileCannotBeCompressed, [])
  /\ run (updateSettings Fixture.savedWithoutEnabled
            (updateSettings
               {| Partial.quality := None; Partial.useQuality := None;
                  Partial.maintainSize := None; Partial.maxWidth := None;
                  Partial.maxHeight := None; Partial.useScaling := None;
                  Partial.scalePercent := None; Partial.useSizeLimits := None;
                  Partial.enabled := Some false |}
               DEFAULT_SETTINGS)) Scenario.photo Scenario.stubborn
     = (Abrupt FileCannotBeCompressed, []).
Proof.
  apply disabled_by_update_stays_disabled; reflexivity.
Defined.

(** ** The upload interceptor *)

(** Whether the interceptor compresses at all. *)
Lemma interceptedUpload_pass_through this host file w :
  override false (Partial.enabled (pluginSettings this))
    && canCompress (imageCompressor this) file = false ->
  interceptedUpload this host file w
  = {| uploaded := file; toasts := []; encoderRequests := [] |}.
Proof.
  intro G. unfold interceptedUpload. rewrite G. reflexivity.
Qed.

(** A normal result always wraps one encoder output. *)
Lemma run_normal settings file w r :
  fst (run settings file w) = Normal r -> exists c, r = result file c.
Proof.
  destruct (canCompress settings file) eqn:E.
  - rewrite (run_eligible _ _ _ E). encoder_cases w file; try discriminate;
      intro H; injection H as <-; eexists; reflexivity.
  - rewrite (run_ineligible _ _ w E). discriminate.
Qed.

(** The interceptor once the gate is open, by the outcome of [compressImage]. *)
Lemma interceptedUpload_open this host file w :
  override false (Partial.enabled (pluginSettings this))
    && canCompress (imageCompressor this) file = true ->
  (exists reason,
      fst (run (imageCompressor this) file w) = Abrupt (EncoderError reason)
      /\ interceptedUpload this host file w
         = {| uploaded := file;
              toasts := [ToastError reason];
              encoderRequests := snd (run (imageCompressor this) file w) |})
  \/ (exists c,
        fst (run (imageCompressor this) file w) = Normal (result file c)
        /\ encoderRequests (interceptedUpload this host file w)
           = snd (run (imageCompressor this) file w)
        /\ ((Js.ofN (size c) / Js.ofN (size file) < 0.9
             /\ ((exists percent,
                    toasts (interceptedUpload this host file w)
                    = [ToastSuccess (formatFileSize (size file))
                         (formatFileSize (size c)) percent]
                    /\ percent = round ((1 - Js.ofN (size c) / Js.ofN (size file)) * 100)
                    /\ type (uploaded (interceptedUpload this host file w)) = type file
                    /\ name (uploaded (interceptedUpload this host file w)) = name c
                    /\ size (uploaded (interceptedUpload this host file w)) = size c)
                 \/ exists percent reason,
                      arrayBuffer host c = Some reason
                      /\ toasts (interceptedUpload this host file w)
                         = [ToastSuccess (formatFileSize (size file))
                              (formatFileSize (size c)) percent;
                            ToastError reason]
                      /\ uploaded (interceptedUpload this host file w) = file))
            \/ (0.9 <= Js.ofN (size c) / Js.ofN (size file)
                /\ uploaded (interceptedUpload this host file w) = file
                /\ toasts (interceptedUpload this host file w)
                   = if toastInfo host then [ToastInfo] else []))).
Proof.
  intro G. unfold interceptedUpload. rewrite G.
  apply andb_true_iff in G. destruct G as [_ E].
  change (compressImage (imageCompressor this) file w [])
    with (run (imageCompressor this) file w).
  destruct (run (imageCompressor this) file w) as [[r|e] log] eqn:R.
  - right. destruct (run_normal (imageCompressor this) file w r) as [c ->];
      [rewrite R; reflexivity|].
    exists c. split; [reflexivity|]. cbn [fst snd result compressionRatio
      compressedFile originalSize compressedSize].
    destruct (Js.lt (Js.ofN (size c) / Js.ofN (size file)) 0.9) eqn:L.
    + apply JsFacts.lt_spec in L.
      destruct (String.eqb (type c) "" || negb (String.eqb (type c) (type file))) eqn:T.
      * destruct (arrayBuffer host c) as [reason|] eqn:AB; cbn.
        -- split; [reflexivity|]. left. split; [exact L|]. right.
           eexists. exists reason. auto.
        -- split; [reflexivity|]. left. split; [exact L|]. left.
           eexists. repeat split.
      * apply orb_false_iff in T. destruct T as [_ T].
        apply negb_false_iff, String.eqb_eq in T. cbn.
        split; [reflexivity|]. left. split; [exact L|]. left.
        eexists. repeat split. exact T.
    + apply JsFacts.lt_false in L. cbn.
      split; [reflexivity|]. right. auto.
  - left. revert R. unfold run at 1. intro R.
    assert (Ab : fst (run (imageCompressor this) file w) = Abrupt e)
      by (unfold run; rewrite R; reflexivity).
    revert Ab. rewrite (run_eligible _ _ _ E). encoder_cases w file; try discriminate.
    intro H. injection H as <-. exists reason. cbn. auto.
Qed.

Lemma ratio_below (c s : N) :
  (0 < s)%N -> (Js.ofN c / Js.ofN s < 0.9 <-> (10 * c < 9 * s)%N).
Proof.
  intro P. apply ofN_pos in P.
  assert (A : forall x y r : Q, 0 < y -> r * y == x -> (r < 0.9 <-> x < y * 0.9)).
  { intros x y r Py E. rewrite <- E, (Qmult_comm y). split; intro H.
    - apply Qmult_lt_compat_r; assumption.
    - apply Qmult_lt_r in H; assumption. }
  assert (B : Js.ofN c < Js.ofN s * 0.9 <-> (10 * c < 9 * s)%N)
    by (unfold Js.ofN, Qlt, Qmult, inject_Z; cbn [Qnum Qden Pos.mul]; lia).
  rewrite <- B. apply A; [exact P|]. field. lra.
Qed.

(** X3. Whatever the encoder returns, the file handed to the host's upload
    function has the declared type of the file the user chose. *)
Theorem interceptedUpload_keeps_type
    (this : Plugin) (host : Host) (file : File) (w : World) :
  type (uploaded (interceptedUpload this host file w)) = type file.
Proof.
  destruct (override false (Partial.enabled (pluginSettings this))
            && canCompress (imageCompressor this) file) eqn:G.
  - destruct (interceptedUpload_open this host file w G) as [Rejected | Returned].
    + destruct Rejected as [reason [_ ->]]. reflexivity.
    + destruct Returned as [c [_ [_ [[_ [Sent | Failed]] | Kept]]]].
      * destruct Sent as [percent [_ [_ [T _]]]]. exact T.
      * destruct Failed as [percent [reason [_ [_ ->]]]]. reflexivity.
      * destruct Kept as [_ [-> _]]. reflexivity.
  - rewrite (interceptedUpload_pass_through _ _ _ _ G). reflexivity.
Qed.

(** X4. For a non-empty file, the interceptor uploads either the file itself
    or a file of less than nine tenths of its size: it never uploads more
    bytes than the user chose. *)
Theorem interceptedUpload_never_larger
    (this : Plugin) (host : Host) (file : File) (w : World) :
  (0 < size file)%N ->
  uploaded (interceptedUpload this host file w) = file
  \/ (10 * size (uploaded (interceptedUpload this host file w)) < 9 * size file)%N.
Proof.
  intro P.
  destruct (override false (Partial.enabled (pluginSettings this))
            && canCompress (imageCompressor this) file) eqn:G.
  - destruct (interceptedUpload_open this host file w G) as [Rejected | Returned].
    + destruct Rejected as [reason [_ ->]]. auto.
    + destruct Returned as [c [_ [_ [[L [Sent | Failed]] | Kept]]]].
      * destruct Sent as [percent [_ [_ [_ [_ S]]]]].
        right. rewrite S. apply ratio_below; assumption.
      * destruct Failed as [percent [reason [_ [_ ->]]]]. auto.
      * destruct Kept as [_ [-> _]]. auto.
  - rewrite (interceptedUpload_pass_through _ _ _ _ G). auto.
Qed.

(** The theorem for the default plugin and an encoder that halves its input. *)
Lemma interceptedUpload_never_larger_witness :
  uploaded (interceptedUpload newPlugin Fixture.host Scenario.photo Fixture.halving)
  = Scenario.photo
  \/ (10 * size (uploaded (interceptedUpload newPlugin Fixture.host Scenario.photo
                             Fixture.halving))
      < 9 * size Scenario.photo)%N.
Proof.
  apply interceptedUpload_never_larger. reflexivity.
Defined.

(** X5. The success toast reports the formatted size of the chosen file and
    a reduction between 10 and 100 percent. *)
Theorem success_toast_reports_at_least_ten_percent
    (this : Plugin) (host : Host) (file : File) (w : World)
    (original compressed : string) (percent : Z) :
  In (ToastSuccess original compressed percent)
     (toasts (interceptedUpload this host file w)) ->
  original = formatFileSize (size file) /\ (10 <= percent <= 100)%Z.
Proof.
  intro H.
  assert (K : exists c,
             original = formatFileSize (size file)
             /\ percent = round ((1 - Js.ofN (size c) / Js.ofN (size file)) * 100)
             /\ Js.ofN (size c) / Js.ofN (size file) < 0.9).
  { revert H. unfold interceptedUpload.
    destruct (override false (Partial.enabled (pluginSettings this))
              && canCompress (imageCompressor this) file); [|cbn; tauto].
    change (compressImage (imageCompressor this) file w [])
      with (run (imageCompressor this) file w).
    destruct (run (imageCompressor this) file w) as [[r|e] log] eqn:R.
    - destruct (run_normal (imageCompressor this) file w r) as [c ->];
        [rewrite R; reflexivity|].
      cbn [result compressionRatio compressedFile originalSize compressedSize].
      destruct (Js.lt (Js.ofN (size c) / Js.ofN (size file)) 0.9) eqn:L.
      + apply JsFacts.lt_spec in L.
        destruct (String.eqb (type c) "" || negb (String.eqb (type c) (type file)));
          [destruct (arrayBuffer host c) as [reason|]|]; cbn [toasts]; intro I.
        * destruct I as [E|[E|[]]]; [|discriminate].
          injection E as <- _ <-. exists c. auto.
        * destruct I as [E|[]]. injection E as <- _ <-. exists c. auto.
        * destruct I as [E|[]]. injection E as <- _ <-. exists c. auto.
      + cbn [toasts]. destruct (toastInfo host); cbn; intro I; [|tauto].
        destruct I as [I|[]]. discriminate.
    - cbn. intros [I|[]]. discriminate. }
  destruct K as [c [-> [-> L]]]. split; [reflexivity|].
  assert (Nonneg : 0 <= Js.ofN (size c) / Js.ofN (size file)).
  { unfold Qdiv. apply Qmult_le_0_compat.
    - unfold Js.ofN, Qle. cbn. lia.
    - apply Qinv_le_0_compat. unfold Js.ofN, Qle. cbn. lia. }
  set (r := Js.ofN (size c) / Js.ofN (size file)) in *.
  unfold round. split.
  - assert (Lo : (Qfloor 10 <= Qfloor ((1 - r) * 100 + (1 # 2)))%Z)
      by (apply Qfloor_resp_le; lra).
    exact Lo.
  - assert (Hi : (Qfloor ((1 - r) * 100 + (1 # 2)) <= Qfloor (100 + (1 # 2)))%Z)
      by (apply Qfloor_resp_le; lra).
    exact Hi.
Qed.



(** X7. The interceptor calls the encoder exactly when the plugin's own
    settings carry [enabled: true], the compressor's settings are enabled and
    the declared type is one of the four image types; otherwise the chosen
    file is uploaded as it is and no toast is shown. *)
Theorem interceptedUpload_gate
    (this : Plugin) (host : Host) (file : File) (w : World) :
  (encoderRequests (interceptedUpload this host file w) <> [] <->
     Partial.enabled (pluginSettings this) = Some true
     /\ enabled (imageCompressor this) = true
     /\ In (type file) ["image/jpeg"; "image/png"; "image/webp"; "image/gif"]%string)
  /\ (encoderRequests (interceptedUpload this host file w) = [] ->
      uploaded (interceptedUpload this host file w) = file
      /\ toasts (interceptedUpload this host file w) = []).
Proof.
  assert (C : canCompress (imageCompressor this) file = true <->
     enabled (imageCompressor this) = true
     /\ In (type file) ["image/jpeg"; "image/png"; "image/webp"; "image/gif"]%string).
  { unfold canCompress. destruct (enabled (imageCompressor this)); cbn [negb].
    - rewrite includes_In. unfold imageTypes. tauto.
    - split; [discriminate|intros [H _]; discriminate]. }
  assert (P : override false (Partial.enabled (pluginSettings this)) = true <->
              Partial.enabled (pluginSettings this) = Some true).
  { destruct (Partial.enabled (pluginSettings this)) as [[|]|]; cbn;
      split; congruence. }
  destruct (override false (Partial.enabled (pluginSettings this))
            && canCompress (imageCompressor this) file) eqn:G.
  - assert (Nonempty : encoderRequests (interceptedUpload this host file w) <> []).
    { pose proof G as G'. apply andb_true_iff in G'. destruct G' as [_ E].
      destruct (interceptedUpload_open this host file w G) as [Rejected | Returned].
      - destruct Rejected as [reason [_ ->]]. cbn.
        destruct (requests_eligible _ _ w E) as [R|R]; rewrite R; discriminate.
      - destruct Returned as [c [_ [-> _]]].
        destruct (requests_eligible _ _ w E) as [R|R]; rewrite R; discriminate. }
    apply andb_true_iff in G. destruct G as [G1 G2].
    split; [|intro H; contradiction]. split; [|intros _; exact Nonempty].
    intros _. split; [apply P; exact G1|apply C; exact G2].
  - rewrite (interceptedUpload_pass_through _ _ _ _ G). cbn.
    split; [|auto]. split; [intro H; contradiction|].
    intros [H1 [H2 H3]]. apply P in H1. assert (H4 : canCompress (imageCompressor this) file = true)
      by (apply C; auto).
    rewrite H1, H4 in G. discriminate.
Qed.

Lemma ratio_not_below (c s : N) :
  (0 < s)%N ->
  Js.ge (Js.ofN c) (Js.ofN s * 0.9) = true -> ~ Js.ofN c / Js.ofN s < 0.9.
Proof.
  intros P G L. apply JsFacts.ge_spec in G. apply (ratio_below c s P) in L.
  revert G. unfold Js.ofN, Qle, Qmult, inject_Z. cbn [Qnum Qden Pos.mul]. lia.
Qed.

(** X8. After a forced attempt, a non-empty file is uploaded either as it
    is or as the output of the forced attempt, which is then under nine
    tenths of its size: the output of attempt #1 is never uploaded once the
    retry has been made. *)
Theorem after_retry_first_output_is_never_uploaded
    (this : Plugin) (host : Host) (file : File) (w : World) (o1 o2 : Options) :
  (0 < size file)%N ->
  encoderRequests (interceptedUpload this host file w) = [o1; o2] ->
  uploaded (interceptedUpload this host file w) = file
  \/ (exists c2,
        encoder w 1 file o2 = Encoded c2
        /\ name (uploaded (interceptedUpload this host file w)) = name c2
        /\ size (uploaded (interceptedUpload this host file w)) = size c2
        /\ (10 * size c2 < 9 * size file)%N).
Proof.
  intros P. unfold interceptedUpload.
  destruct (override false (Partial.enabled (pluginSettings this))
            && canCompress (imageCompressor this) file) eqn:G; [|discriminate].
  apply andb_true_iff in G. destruct G as [_ E].
  change (compressImage (imageCompressor this) file w [])
    with (run (imageCompressor this) file w).
  rewrite (run_eligible _ _ _ E). cbv zeta.
  destruct (encoder w 0 file (firstRequest (imageCompressor this) file w))
    as [c1|reason] eqn:E1; [|discriminate].
  destruct (Js.ge (Js.ofN (size c1)) (Js.ofN (size file) * 0.9)) eqn:Ge;
    cbn [result compressionRatio compressedFile originalSize compressedSize].
  - assert (Kept : Js.lt (Js.ofN (size c1) / Js.ofN (size file)) 0.9 = false).
    { destruct (Js.lt _ _) eqn:L; [|reflexivity].
      apply JsFacts.lt_spec in L. exfalso. exact (ratio_not_below _ _ P Ge L). }
    destruct (encoder w 1 file (secondRequest (imageCompressor this) file w))
      as [c2|reason] eqn:E2;
      [destruct (Js.lt (Js.ofN (size c2)) (Js.ofN (size c1) * 0.9))|];
      cbn [result compressionRatio compressedFile originalSize compressedSize];
      rewrite ?Kept; cbn; auto.
    destruct (Js.lt (Js.ofN (size c2) / Js.ofN (size file)) 0.9) eqn:L; cbn; auto.
    apply JsFacts.lt_spec, (ratio_below _ _ P) in L.
    destruct (String.eqb (type c2) "" || negb (String.eqb (type c2) (type file)));
      [destruct (arrayBuffer host c2)|]; cbn; auto;
      intro Log; injection Log as _ <-; right; exists c2; auto.
  - destruct (Js.lt _ _); cbn;
      [destruct (String.eqb (type c1) "" || negb (String.eqb (type c1) (type file)));
       [destruct (arrayBuffer host c1)|]|]; cbn; discriminate.
Qed.

(** The theorem for an encoder that gains nothing at first and a fifth of
    the size when forced. *)
Lemma after_retry_witness :
  exists o1 o2,
    encoderRequests (interceptedUpload newPlugin Fixture.host Scenario.photo Fixture.reluctant)
    = [o1; o2]
    /\ (uploaded (interceptedUpload newPlugin Fixture.host Scenario.photo Fixture.reluctant)
        = Scenario.photo
        \/ exists c2,
             encoder Fixture.reluctant 1 Scenario.photo o2 = Encoded c2
             /\ name (uploaded (interceptedUpload newPlugin Fixture.host Scenario.photo
                                  Fixture.reluctant)) = name c2
             /\ size (uploaded (interceptedUpload newPlugin Fixture.host Scenario.photo
                                  Fixture.reluctant)) = size c2
             /\ (10 * size c2 < 9 * size Scenario.photo)%N).
Proof.
  eexists. eexists. split; [reflexivity|].
  eapply (after_retry_first_output_is_never_uploaded
            newPlugin Fixture.host Scenario.photo Fixture.reluctant); reflexivity.
Defined.

(** The theorem for an encoder that halves its input. *)
Lemma success_toast_witness :
  "1000 Bytes"%string = formatFileSize (size Scenario.photo) /\ (10 <= 50 <= 100)%Z.
Proof.
  apply (success_toast_reports_at_least_ten_percent
           newPlugin Fixture.host Scenario.photo Fixture.halving
           "1000 Bytes" "500 Bytes" 50).
  left. reflexivity.
Defined.


(** ** [loadSettings], [interceptFileUpload] and [destroy] *)

(** X9. After [loadSettings] has parsed a saved object, the interceptor's
    two [enabled] tests agree if the object has the key.  If the key is
    missing, the compressor keeps its previous [enabled] value but the
    interceptor is off: every upload passes through untouched. *)
Theorem loadSettings_enabled_key (saved : Partial.t) (this : Plugin) :
  match Partial.enabled saved with
  | Some flag =>
      enabled (imageCompressor (loadSettings (Parsed saved) this)) = flag
      /\ Partial.enabled (pluginSettings (loadSettings (Parsed saved) this)) = Some flag
  | None =>
      enabled (imageCompressor (loadSettings (Parsed saved) this))
      = enabled (imageCompressor this)
      /\ (forall (host : Host) (file : File) (w : World),
            interceptedUpload (loadSettings (Parsed saved) this) host file w
            = {| uploaded := file; toasts := []; encoderRequests := [] |})
  end.
Proof.
  destruct (Partial.enabled saved) as [flag|] eqn:K; cbn; rewrite K; cbn.
  - auto.
  - split; [reflexivity|]. intros host file w.
    apply interceptedUpload_pass_through. cbn. rewrite K. reflexivity.
Qed.

(** X10. On a plugin that has saved no upload function yet,
    [interceptFileUpload] followed by [destroy] leaves the host's upload slot
    as it found it; in between, the slot holds the interceptor exactly when
    the host had an upload function. *)
Theorem destroy_undoes_interceptFileUpload (this : Plugin) (store : ResourceStore) :
  originalUploadFunction this = None ->
  destroy (fst (interceptFileUpload this store)) (snd (interceptFileUpload this store))
  = store
  /\ (snd (interceptFileUpload this store) = Some (Some Interceptor) <->
      (exists upload, store = Some (Some upload))).
Proof.
  intro Fresh. unfold interceptFileUpload, destroy.
  destruct store as [[upload|]|]; cbn; rewrite ?Fresh.
  - split; [reflexivity|]. split; [intros _; exists upload; reflexivity|reflexivity].
  - split; [reflexivity|]. split; [discriminate|intros [u H]; discriminate].
  - split; [reflexivity|]. split; [discriminate|intros [u H]; discriminate].
Qed.

(** The theorem for a new plugin and a host whose upload function is
    number 7. *)
Lemma destroy_witness :
  destroy (fst (interceptFileUpload newPlugin (Some (Some (HostFunction 7)))))
          (snd (interceptFileUpload newPlugin (Some (Some (HostFunction 7)))))
  = Some (Some (HostFunction 7))
  /\ (snd (interceptFileUpload newPlugin (Some (Some (HostFunction 7))))
      = Some (Some Interceptor) <->
      (exists upload, Some (Some (HostFunction 7)) = Some (Some upload))).
Proof.
  apply destroy_undoes_interceptFileUpload. reflexivity.
Defined.

(** ** The preview component *)

Lemma handleImageFile_clears_flag settings page w file prev :
  Preview.settingsChanged (fst (handleImageFile settings page w file prev)) = false.
Proof.
  unfold handleImageFile.
  destruct (negb (String.prefix "image/" (type file))); [reflexivity|].
  destruct (createObjectURL page file); [|reflexivity].
  destruct (compressImage settings file w []) as [[r|e] log]; [|reflexivity].
  destruct (createObjectURL page (compressedFile r)); reflexivity.
Qed.

(** X11. A file whose type starts with [image/] but which the compressor
    does not accept (a bitmap, or any image while the settings are disabled)
    ends in the error state with the compressor's message: no encoder
    request is issued, nothing stays in progress, and the images shown before
    are kept. *)
Theorem preview_reports_ineligible_image
    (settings : CompressionSettings) (page : Page) (w : World)
    (file : File) (prev : Preview.State) (url : string) :
  String.prefix "image/" (type file) = true ->
  canCompress settings file = false ->
  createObjectURL page file = Normal url ->
  snd (handleImageFile settings page w file prev) = []
  /\ Preview.error (fst (handleImageFile settings page w file prev))
     = Some "压缩失败: File cannot be compressed"%string
  /\ Preview.isCompressing (fst (handleImageFile settings page w file prev)) = false
  /\ Preview.originalFile (fst (handleImageFile settings page w file prev)) = Some file
  /\ Preview.originalImage (fst (handleImageFile settings page w file prev))
     = Preview.originalImage prev
  /\ Preview.compressedImage (fst (handleImageFile settings page w file prev))
     = Preview.compressedImage prev.
Proof.
  intros Img Inel Url. unfold handleImageFile. rewrite Img, Url. cbn [negb].
  change (compressImage settings file w []) with (run settings file w).
  rewrite (run_ineligible _ _ w Inel). cbn. repeat split.
Qed.

(** The theorem for a bitmap under the default settings. *)
Lemma preview_bitmap_witness :
  snd (handleImageFile DEFAULT_SETTINGS Fixture.page Scenario.stubborn
         Fixture.bitmap Preview.initial) = []
  /\ Preview.error (fst (handleImageFile DEFAULT_SETTINGS Fixture.page Scenario.stubborn
                           Fixture.bitmap Preview.initial))
     = Some "压缩失败: File cannot be compressed"%string.
Proof.
  destruct (preview_reports_ineligible_image DEFAULT_SETTINGS Fixture.page
              Scenario.stubborn Fixture.bitmap Preview.initial "blob:scan.bmp"
              eq_refl eq_refl eq_refl) as [L [E _]].
  split; [exact L|exact E].
Defined.

(** X12. Whatever goes wrong while handling a file whose type starts with
    [image/] (an object URL that cannot be created, an ineligible file, a
    rejection by the encoder), the preview does not stay in progress: it ends
    either with an error message or with both images and the figures of the
    compression result. *)
Theorem preview_never_stays_in_progress
    (settings : CompressionSettings) (page : Page) (w : World)
    (file : File) (prev : Preview.State) :
  String.prefix "image/" (type file) = true ->
  Preview.isCompressing (fst (handleImageFile settings page w file prev)) = false
  /\ ((exists text, Preview.error (fst (handleImageFile settings page w file prev))
                    = Some text)
      \/ (Preview.error (fst (handleImageFile settings page w file prev)) = None
          /\ exists c,
               fst (run settings file w) = Normal (result file c)
               /\ Preview.originalSize (fst (handleImageFile settings page w file prev))
                  = size file
               /\ Preview.compressedSize (fst (handleImageFile settings page w file prev))
                  = size c
               /\ Preview.compressionRatio (fst (handleImageFile settings page w file prev))
                  = Js.ofN (size c) / Js.ofN (size file)
               /\ Preview.originalImage (fst (handleImageFile settings page w file prev))
                  <> None
               /\ Preview.compressedImage (fst (handleImageFile settings page w file prev))
                  <> None)).
Proof.
  intro Img. unfold handleImageFile. rewrite Img. cbn [negb].
  destruct (createObjectURL page file) as [url|e];
    [|cbn; split; [reflexivity|left; eexists; reflexivity]].
  change (compressImage settings file w []) with (run settings file w).
  destruct (run settings file w) as [[r|e] log] eqn:R;
    [|cbn; split; [reflexivity|left; eexists; reflexivity]].
  destruct (run_normal settings file w r) as [c ->]; [rewrite R; reflexivity|].
  destruct (createObjectURL page (compressedFile (result file c))) as [url2|e];
    cbn; split; try reflexivity.
  - right. split; [reflexivity|]. exists c. repeat split; discriminate.
  - left. eexists. reflexivity.
Qed.

(** The theorem for the 1000-byte JPEG and an encoder that halves it. *)
Lemma preview_progress_witness :
  Preview.isCompressing
    (fst (handleImageFile DEFAULT_SETTINGS Fixture.page Fixture.halving
            Scenario.photo Preview.initial)) = false.
Proof.
  exact (proj1 (preview_never_stays_in_progress DEFAULT_SETTINGS Fixture.page
                  Fixture.halving Scenario.photo Preview.initial eq_refl)).
Defined.

(** X13. [applyCompression] recompresses once per change: applied a second
    time right after itself it issues no encoder request and leaves the state
    as the first application left it. *)
Theorem applyCompression_twice
    (settings : CompressionSettings) (page : Page) (w : World) (prev : Preview.State) :
  applyCompression settings page w (fst (applyCompression settings page w prev))
  = (fst (applyCompression settings page w prev), []).
Proof.
  assert (Idle : forall st, Preview.settingsChanged st = false ->
                            applyCompression settings page w st = (st, [])).
  { intros st H. unfold applyCompression. rewrite H.
    destruct (Preview.originalFile st); reflexivity. }
  unfold applyCompression at 2 3.
  destruct (Preview.originalFile prev) as [file|] eqn:F.
  - destruct (Preview.settingsChanged prev) eqn:C.
    + apply Idle. apply handleImageFile_clears_flag.
    + cbn. apply Idle. exact C.
  - cbn. unfold applyCompression. rewrite F. reflexivity.
Qed.

(** * Further properties of [compressImage] and [formatFileSize] *)

(** ** What every encoder request has in common *)

Lemma adjustSize_keeps settings shouldAdjustSize originalDimensions options :
  let adjusted := adjustSize settings shouldAdjustSize originalDimensions options in
  maxSizeMB adjusted = maxSizeMB options
  /\ useWebWorker adjusted = useWebWorker options
  /\ initialQuality adjusted = initialQuality options
  /\ maxIteration adjusted = maxIteration options
  /\ fileType adjusted = fileType options
  /\ exifOrientation adjusted = exifOrientation options
  /\ (maxWidthOrHeight options = None ->
      (maxWidthOrHeight adjusted = None /\ alwaysKeepResolution adjusted
                                           = alwaysKeepResolution options)
      \/ (maxWidthOrHeight adjusted <> None /\ alwaysKeepResolution adjusted = false)).
Proof.
  unfold adjustSize.
  destruct originalDimensions as [d|]; [|cbn; tauto].
  destruct (shouldAdjustSize && (0 <? width d)%Z && (0 <? height d)%Z); [|cbn; tauto].
  destruct (targetDimensions settings d) as [tw th].
  destruct (Js.neq tw _ || Js.neq th _); cbn; [|tauto].
  repeat split. intros _. right. split; [discriminate|reflexivity].
Qed.

(** X14. One invocation issues at most two encoder requests, and each of
    them asks for the input's own MIME type as output type, a size cap of
    10 MB, at most 10 iterations, the web worker and EXIF orientation 1. *)
Theorem every_request_keeps_type_and_caps
    (settings : CompressionSettings) (file : File) (w : World) :
  (List.length (snd (run settings file w)) <= 2)%nat
  /\ (forall o, In o (snd (run settings file w)) ->
        fileType o = type file
        /\ maxSizeMB o = 10
        /\ maxIteration o = 10%Z
        /\ useWebWorker o = true
        /\ exifOrientation o = 1%Z).
Proof.
  assert (F : fileType (firstRequest settings file w) = type file
              /\ maxSizeMB (firstRequest settings file w) = 10
              /\ maxIteration (firstRequest settings file w) = 10%Z
              /\ useWebWorker (firstRequest settings file w) = true
              /\ exifOrientation (firstRequest settings file w) = 1%Z).
  { unfold firstRequest.
    destruct (adjustSize_keeps settings (fst (probed settings file w))
                (snd (probed settings file w)) (baseOptions settings file))
      as [A [B [_ [C [D [E _]]]]]].
    rewrite A, B, C, D, E. cbn. tauto. }
  assert (S : fileType (secondRequest settings file w) = type file
              /\ maxSizeMB (secondRequest settings file w) = 10
              /\ maxIteration (secondRequest settings file w) = 10%Z
              /\ useWebWorker (secondRequest settings file w) = true
              /\ exifOrientation (secondRequest settings file w) = 1%Z).
  { unfold secondRequest, forcedOptions. cbn. tauto. }
  destruct (canCompress settings file) eqn:E.
  - destruct (requests_eligible _ _ w E) as [R|R]; rewrite R; cbn; split; try lia.
    + intros o [<-|[]]. exact F.
    + intros o [<-|[<-|[]]]; assumption.
  - rewrite (run_ineligible _ _ w E). cbn. split; [lia|tauto].
Qed.

(** X15. The first request keeps the resolution ([alwaysKeepResolution])
    only if neither geometry flag is set, and never together with a
    longest-edge bound; the forced request copies the flag of the first even
    when it adds a bound of its own. *)
Theorem alwaysKeepResolution_of_requests
    (settings : CompressionSettings) (file : File) (w : World) :
  (forall o1, nth_error (snd (run settings file w)) 0 = Some o1 ->
     (alwaysKeepResolution o1 = true ->
        Js.truthy (useScaling settings) = false
        /\ Js.truthy (useSizeLimits settings) = false
        /\ maxWidthOrHeight o1 = None))
  /\ (forall o1 o2, snd (run settings file w) = [o1; o2] ->
        alwaysKeepResolution o2 = alwaysKeepResolution o1).
Proof.
  split.
  - intros o1 H. apply requests_first in H. destruct H as [_ ->].
    unfold firstRequest.
    destruct (adjustSize_keeps settings (fst (probed settings file w))
                (snd (probed settings file w)) (baseOptions settings file))
      as [_ [_ [_ [_ [_ [_ K]]]]]].
    destruct (K eq_refl) as [[B A]|[_ A]]; rewrite A; [|discriminate].
    cbn. intro T. apply andb_true_iff in T. destruct T as [T1 T2].
    apply negb_true_iff in T1. apply negb_true_iff in T2. auto.
  - intros o1 o2 H. apply requests_pair in H. destruct H as [_ [-> ->]].
    reflexivity.
Qed.

(** ** The forced attempt is never gentler *)

Lemma compressionQuality_ge (settings : CompressionSettings) (file : File) :
  0.1 <= quality settings -> 0.1 <= compressionQuality settings file.
Proof.
  intro H. rewrite compressionQuality_spec. unfold specPlannedQuality.
  assert (M : forall a b, 0.1 <= a -> 0.1 <= b -> 0.1 <= Qmin a b)
    by (intros a b Ha Hb; apply Q.min_glb; assumption).
  assert (0.1 <= 0.5) by (unfold Qle; cbn; lia).
  assert (0.1 <= 0.6) by (unfold Qle; cbn; lia).
  destruct (1048576 <? size file)%N; [|destruct (512000 <? size file)%N];
    destruct (String.eqb (type file) "image/png"); auto.
Qed.

(** X16. For a policy quality within the documented range 0.1 to 1, the
    forced request asks for a quality of at least 0.1, never above that of
    attempt #1 and strictly below it unless attempt #1 already asked for 0.1;
    and where attempt #1 carried a positive longest-edge bound, the forced
    request carries a strictly smaller one. *)
Theorem forced_request_is_never_gentler
    (settings : CompressionSettings) (file : File) (w : World) (o1 o2 : Options) :
  0.1 <= quality settings -> quality settings <= 1 ->
  snd (run settings file w) = [o1; o2] ->
  0.1 <= initialQuality o2
  /\ initialQuality o2 <= initialQuality o1
  /\ (0.1 < initialQuality o1 -> initialQuality o2 < initialQuality o1)
  /\ (forall edge, maxWidthOrHeight o1 = Some edge -> 0 < edge ->
        exists edge2, maxWidthOrHeight o2 = Some edge2 /\ edge2 < edge).
Proof.
  intros Lo Hi H. apply requests_pair in H. destruct H as [_ [-> ->]].
  pose proof (firstRequest_quality settings file w) as Q1.
  pose proof (compressionQuality_ge settings file Lo) as PLo.
  pose proof (compressionQuality_le settings file) as PHi.
  assert (Q2 : initialQuality (secondRequest settings file w)
               = Qmax 0.1 (compressionQuality settings file - 0.4)) by reflexivity.
  set (planned := compressionQuality settings file) in *.
  assert (M : 0.1 <= Qmax 0.1 (planned - 0.4)) by apply Q.le_max_l.
  assert (U : Qmax 0.1 (planned - 0.4) <= planned)
    by (apply Q.max_lub; lra).
  assert (V : 0.1 < planned -> Qmax 0.1 (planned - 0.4) < planned)
    by (intro P; apply Q.max_lub_lt; lra).
  rewrite Q2, Q1. split; [exact M|].
  destruct (Js.notFalse (useQuality settings)).
  - split; [exact U|]. split; [exact V|].
    intros edge E P. rewrite secondRequest_bound, E. cbn.
    destruct (Qeq_bool edge 0) eqn:Z; [apply Qeq_bool_iff in Z; lra|]. cbn.
    eexists. split; [reflexivity|].
    eapply Qle_lt_trans; [apply JsFacts.floor_le|lra].
  - split; [lra|]. split; [intros _; lra|].
    intros edge E P. rewrite secondRequest_bound, E. cbn.
    destruct (Qeq_bool edge 0) eqn:Z; [apply Qeq_bool_iff in Z; lra|]. cbn.
    eexists. split; [reflexivity|].
    eapply Qle_lt_trans; [apply JsFacts.floor_le|lra].
Qed.

(** The theorem at size limits of 800 x 600 and an encoder that gains
    nothing. *)
Lemma forced_never_gentler_witness :
  exists o1 o2,
    snd (run Scenario.limited Scenario.photo Scenario.stubborn) = [o1; o2]
    /\ 0.1 <= initialQuality o2
    /\ initialQuality o2 <= initialQuality o1.
Proof.
  exists (firstRequest Scenario.limited Scenario.photo Scenario.stubborn).
  exists (secondRequest Scenario.limited Scenario.photo Scenario.stubborn).
  split; [reflexivity|].
  assert (Lo : 0.1 <= quality Scenario.limited) by (unfold Qle; cbn; lia).
  assert (Hi : quality Scenario.limited <= 1) by (unfold Qle; cbn; lia).
  destruct (forced_request_is_never_gentler Scenario.limited Scenario.photo
              Scenario.stubborn _ _ Lo Hi eq_refl) as [A [B _]].
  split; assumption.
Defined.

(** X17. While quality compression is on, attempt #1 never asks for more
    than 0.5 for a PNG or a file above 1 MiB, nor for more than 0.6 for a
    file above 500 KiB, whatever the policy quality. *)
Theorem first_request_quality_caps
    (settings : CompressionSettings) (file : File) (w : World) (o1 : Options) :
  useQuality settings <> Some false ->
  nth_error (snd (run settings file w)) 0 = Some o1 ->
  (type file = "image/png"%string \/ (1048576 < size file)%N -> initialQuality o1 <= 0.5)
  /\ ((512000 < size file)%N -> initialQuality o1 <= 0.6).
Proof.
  intros U H. apply requests_first in H. destruct H as [_ ->].
  rewrite firstRequest_quality.
  assert (On : Js.notFalse (useQuality settings) = true)
    by (destruct (useQuality settings) as [[|]|]; cbn; congruence).
  rewrite On, compressionQuality_spec. unfold specPlannedQuality.
  set (q := quality settings).
  assert (A : forall x, Qmin (Qmin x 0.5) 0.5 <= 0.5) by (intro; apply Q.le_min_r).
  assert (B : forall x, Qmin x 0.5 <= 0.5) by (intro; apply Q.le_min_r).
  assert (C : forall x, Qmin x 0.6 <= 0.6) by (intro; apply Q.le_min_r).
  assert (D : forall x, Qmin x 0.5 <= 0.6)
    by (intro x; eapply Qle_trans; [apply Q.le_min_r|unfold Qle; cbn; lia]).
  split.
  - intros [Png|Big].
    + rewrite Png. change (String.eqb "image/png" "image/png") with true.
      cbv iota. apply Q.le_min_r.
    + apply N.ltb_lt in Big. rewrite Big.
      destruct (String.eqb (type file) "image/png"); auto.
  - intro Mid. destruct (1048576 <? size file)%N.
    + destruct (String.eqb (type file) "image/png"); auto.
    + apply N.ltb_lt in Mid. rewrite Mid.
      destruct (String.eqb (type file) "image/png"); auto.
Qed.

(** The theorem for a PNG of about 2 MB under the default settings. *)
Lemma quality_caps_witness :
  exists o1,
    nth_error (snd (run DEFAULT_SETTINGS Fixture.screenshot Scenario.stubborn)) 0 = Some o1
    /\ initialQuality o1 <= 0.5.
Proof.
  eexists. split; [reflexivity|].
  refine (proj1 (first_request_quality_caps DEFAULT_SETTINGS Fixture.screenshot
                   Scenario.stubborn _ _ eq_refl) _).
  - discriminate.
  - left. reflexivity.
Defined.

(** ** The planned target fits the size limits *)

Lemma checks_fit (maxW maxH tw th : Q) :
  0 < maxW -> 0 < maxH ->
  (0 < tw -> 0 <= th) -> (0 < th -> 0 <= tw) ->
  fst (heightCheck maxH (widthCheck maxW (tw, th))) <= maxW
  /\ snd (heightCheck maxH (widthCheck maxW (tw, th))) <= maxH.
Proof.
  intros PW PH S1 S2.
  assert (W : exists a b, widthCheck maxW (tw, th) = (a, b)
                          /\ a <= maxW /\ (0 < b -> 0 <= a)).
  { unfold widthCheck. destruct (Js.gt tw maxW) eqn:G.
    - apply JsFacts.gt_spec in G. eexists. eexists. split; [reflexivity|].
      split; [lra|]. intros _. lra.
    - apply JsFacts.gt_false in G. exists tw, th. auto. }
  destruct W as [a [b [-> [Ha Sa]]]]. unfold heightCheck.
  destruct (Js.gt b maxH) eqn:G; cbn [fst snd].
  - apply JsFacts.gt_spec in G.
    assert (Pb : 0 < b) by lra. specialize (Sa Pb).
    assert (R : (maxH / b) * b == maxH) by (field; lra).
    set (r := maxH / b) in *.
    assert (R1 : r < 1) by nra.
    assert (R0 : 0 < r) by nra.
    split; [|lra]. apply floor_le_bound. nra.
  - apply JsFacts.gt_false in G. auto.
Qed.

(** X18. With [useSizeLimits] on and positive limits, the target planned
    for an image of positive width and height fits the limits: its width is
    at most [maxWidth] and its height at most [maxHeight], so the bound that
    attempt #1 carries, when it carries one, is at most the larger limit. *)
Theorem planned_target_fits_limits
    (settings : CompressionSettings) (original : Dimensions) (maxW maxH : Q) :
  (0 < width original)%Z -> (0 < height original)%Z ->
  useSizeLimits settings = Some true ->
  maxWidth settings = Some maxW -> maxHeight settings = Some maxH ->
  0 < maxW -> 0 < maxH ->
  fst (targetDimensions settings original) <= maxW
  /\ snd (targetDimensions settings original) <= maxH
  /\ (forall (file : File) (w : World) (o1 : Options) (edge : Q),
        image w file = OnLoad (width original) (height original) ->
        nth_error (snd (run settings file w)) 0 = Some o1 ->
        maxWidthOrHeight o1 = Some edge ->
        edge <= Js.max maxW maxH).
Proof.
  intros Hw Hh U MW MH PW PH.
  assert (PWo : 0 < Js.ofZ (width original)) by (unfold Js.ofZ, Qlt; cbn; lia).
  assert (PHo : 0 < Js.ofZ (height original)) by (unfold Js.ofZ, Qlt; cbn; lia).
  assert (F : fst (targetDimensions settings original) <= maxW
              /\ snd (targetDimensions settings original) <= maxH).
  { unfold targetDimensions.
    pose proof (scaledDimensions_within settings _ _ PWo PHo) as [_ [_ [S1 S2]]].
    destruct (scaledDimensions settings
                (Js.ofZ (width original), Js.ofZ (height original))) as [tw th].
    cbn [fst snd] in S1, S2.
    rewrite resultDimensions_checks, U, MW, MH. cbn.
    destruct (Qeq_bool maxW 0) eqn:ZW; [apply Qeq_bool_iff in ZW; lra|].
    destruct (Qeq_bool maxH 0) eqn:ZH; [apply Qeq_bool_iff in ZH; lra|].
    cbn. apply checks_fit; assumption. }
  destruct F as [F1 F2]. split; [exact F1|]. split; [exact F2|].
  intros file w o1 edge Im Ho Hb.
  apply requests_first in Ho. destruct Ho as [_ ->].
  apply firstRequest_bound in Hb. destruct Hb as [d [Pd [_ [_ ->]]]].
  assert (d = original).
  { revert Pd. unfold probed. rewrite Im.
    destruct (Js.truthy (useScaling settings) || Js.truthy (useSizeLimits settings));
      cbn; [|discriminate].
    intro E. injection E as <-. destruct original; reflexivity. }
  subst d. apply Q.max_le_compat; assumption.
Qed.

(** The theorem at limits of 800 x 600 and an image of 4000 x 3000. *)
Lemma fits_limits_witness :
  fst (targetDimensions Scenario.limited {| width := 4000; height := 3000 |}) <= 800
  /\ snd (targetDimensions Scenario.limited {| width := 4000; height := 3000 |}) <= 600.
Proof.
  destruct (planned_target_fits_limits Scenario.limited
              {| width := 4000; height := 3000 |} 800 600)
    as [A [B _]]; try reflexivity.
  split; assumption.
Defined.

(** ** The adopted output *)

(** X19. The output that a normal result carries is never larger than the
    output of attempt #1: it is that output itself, or a forced output of
    less than nine tenths of its size.  (Nothing bounds it by the size of the
    input file.) *)
Theorem adopted_output_not_larger_than_first
    (settings : CompressionSettings) (file : File) (w : World)
    (r : CompressionResult) (o1 : Options) (c1 : File) :
  fst (run settings file w) = Normal r ->
  nth_error (snd (run settings file w)) 0 = Some o1 ->
  encoder w 0 file o1 = Encoded c1 ->
  compressedFile r = c1
  \/ (10 * compressedSize r < 9 * size c1)%N.
Proof.
  intros R H1 E1. apply requests_first in H1. destruct H1 as [E ->].
  revert R. rewrite (run_eligible _ _ _ E). cbv zeta. rewrite E1.
  destruct (Js.ge _ _).
  - destruct (encoder w 1 file _) as [c2|reason];
      [destruct (Js.lt (Js.ofN (size c2)) (Js.ofN (size c1) * 0.9)) eqn:L|];
      cbn [fst]; intro H; injection H as <-;
      cbn [result compressedFile compressedSize]; auto.
    right. apply JsFacts.lt_spec in L. revert L.
    unfold Js.ofN, Qlt, Qmult, inject_Z. cbn [Qnum Qden Pos.mul]. lia.
  - cbn. intro H. injection H as <-. auto.
Qed.

(** The theorem for an encoder that gains nothing at first and a fifth of
    the size when forced. *)
Lemma adopted_output_witness :
  exists r,
    fst (run DEFAULT_SETTINGS Scenario.photo Fixture.reluctant) = Normal r
    /\ (compressedFile r = Scenario.photo
        \/ (10 * compressedSize r < 9 * size Scenario.photo)%N).
Proof.
  eexists. split; [reflexivity|].
  eapply (adopted_output_not_larger_than_first DEFAULT_SETTINGS Scenario.photo
            Fixture.reluctant); reflexivity.
Defined.

(** ** The number [formatFileSize] prints *)

From Stdlib Require Import Qpower.

(** X20. For every positive byte count the number printed before the unit
    lies between 1 and 1024: the count is scaled into [[1, 1024)], and
    rounding to two decimals can reach 1024 but never drops below 1. *)
Theorem formatFileSize_number_range (bytes : N) :
  (0 < bytes)%N ->
  (100 <= toFixed2 (Js.ofN bytes / 1024 ^ Z.of_nat (unitIndex bytes)) <= 102400)%Z.
Proof.
  intro P. destruct (unitIndex_spec bytes P) as [Lo Hi].
  set (i := unitIndex bytes) in *.
  assert (K : forall n : N, Js.ofN (1024 ^ n) == 1024 ^ Z.of_N n).
  { intro n. unfold Js.ofN. rewrite N2Z.inj_pow.
    rewrite Zpower_Qpower by lia. reflexivity. }
  assert (Pw : 0 < 1024 ^ Z.of_nat i) by (apply Qpower_0_lt; reflexivity).
  assert (L : 1024 ^ Z.of_nat i <= Js.ofN bytes).
  { rewrite <- nat_N_Z, <- K. unfold Js.ofN. rewrite <- Zle_Qle. lia. }
  assert (H : Js.ofN bytes < 1024 * 1024 ^ Z.of_nat i).
  { assert (E : 1024 * 1024 ^ Z.of_nat i == Js.ofN (1024 ^ (N.of_nat i + 1))).
    { rewrite K, N2Z.inj_add, nat_N_Z. change (Z.of_N 1) with 1%Z.
      rewrite Qpower_plus by discriminate. change (1024 ^ 1) with 1024. ring. }
    rewrite E. unfold Js.ofN. rewrite <- Zlt_Qlt. lia. }
  assert (R : (Js.ofN bytes / 1024 ^ Z.of_nat i) * 1024 ^ Z.of_nat i == Js.ofN bytes)
    by (field; lra).
  set (x := Js.ofN bytes / 1024 ^ Z.of_nat i) in *.
  set (k := 1024 ^ Z.of_nat i) in *.
  assert (X1 : 1 <= x) by nra.
  assert (X2 : x < 1024) by nra.
  unfold toFixed2. split.
  - assert (A : (Qfloor 100 <= Qfloor (x * 100 + (1 # 2)))%Z)
      by (apply Qfloor_resp_le; lra).
    exact A.
  - assert (A : (Qfloor (x * 100 + (1 # 2)) <= Qfloor (102400 + (1 # 2)))%Z)
      by (apply Qfloor_resp_le; lra).
    exact A.
Qed.

(** The theorem at 1048575 bytes, which prints as 1024 KB. *)
Lemma formatFileSize_range_witness :
  (100 <= toFixed2 (Js.ofN 1048575 / 1024 ^ Z.of_nat (unitIndex 1048575)) <= 102400)%Z.
Proof.
  apply formatFileSize_number_range. reflexivity.
Defined.
